(** * Nice-Toolkits-Collection: table model, DDL generator, test-data generator

    A shallow embedding of

      - [src/database/structure.py]       (MagiDDL, MagiTableColumn, MagiTableIndex, MagiTable)
      - [src/database/table_construct.py] (DefineDataFrameColumns, TableConstruct)
      - [src/database/ddl_construct.py]   (DDLConstruct)
      - [src/data_constuct.py]            (LengthRatio, TextFillMode, TestDataGenerator)

    Python values are modelled as follows.  A [str] is a Rocq [string], one
    [ascii] per character, so [len], slicing, [lower] and [upper] are those of
    single-byte text.  An [int] is a [Z].  A [float] is an IEEE 754 binary64
    number, given by the reference operations of [SpecFloat] at precision 53
    and [emax = 1024].  [None] is the [None] of an option type.  A [dict] is an
    association list in insertion order; assigning to a key that is present
    replaces the value in place.  An exception is the left side of a sum. *)

From Stdlib Require Import ZArith List String Ascii Bool Lia.
From Stdlib Require Import Floats.SpecFloat DecimalString.
From Stdlib Require Import Sorting.Permutation Sorting.Sorted.
Import ListNotations.

Local Open Scope string_scope.
Local Open Scope Z_scope.

(** ** Python primitives *)

Module Py.

(** Exceptions raised by the modelled code, with their messages. *)
Inductive exn : Type :=
| ValueError (msg : string)
| TypeError (msg : string)
| OverflowError (msg : string).

Definition result (A : Type) : Type := (exn + A)%type.

Definition ret {A : Type} (a : A) : result A := inr a.
Definition raise {A : Type} (e : exn) : result A := inl e.

Definition bind {A B : Type} (m : result A) (k : A -> result B) : result B :=
  match m with
  | inl e => inl e
  | inr a => k a
  end.

(** *** Truthiness *)

Definition truthy_str (s : string) : bool :=
  match s with EmptyString => false | _ => true end.

Definition truthy_opt_str (o : option string) : bool :=
  match o with None => false | Some s => truthy_str s end.

Definition truthy_opt_int (o : option Z) : bool :=
  match o with None => false | Some z => negb (z =? 0) end.

(** [x or d] on an optional int. *)
Definition or_int (o : option Z) (d : Z) : Z :=
  match o with
  | Some z => if z =? 0 then d else z
  | None => d
  end.

(** [x or d] on an optional str. *)
Definition or_str (o : option string) (d : string) : string :=
  match o with
  | Some s => if truthy_str s then s else d
  | None => d
  end.

(** *** Strings *)

Definition len (s : string) : Z := Z.of_nat (String.length s).

Definition lower_char (c : ascii) : ascii :=
  let n := nat_of_ascii c in
  if ((65 <=? n) && (n <=? 90))%nat then ascii_of_nat (n + 32) else c.

Definition upper_char (c : ascii) : ascii :=
  let n := nat_of_ascii c in
  if ((97 <=? n) && (n <=? 122))%nat then ascii_of_nat (n - 32) else c.

Fixpoint map_str (f : ascii -> ascii) (s : string) : string :=
  match s with
  | EmptyString => EmptyString
  | String c s' => String (f c) (map_str f s')
  end.

Definition lower : string -> string := map_str lower_char.
Definition upper : string -> string := map_str upper_char.

(** [s.replace(c, empty)] for a one-character [c]. *)
Fixpoint remove_char (c : ascii) (s : string) : string :=
  match s with
  | EmptyString => EmptyString
  | String a s' =>
      if Ascii.eqb a c then remove_char c s' else String a (remove_char c s')
  end.

Fixpoint repeat_nat (s : string) (n : nat) : string :=
  match n with
  | O => EmptyString
  | S n' => s ++ repeat_nat s n'
  end.

(** [s * n]: empty when [n <= 0]. *)
Definition repeat (s : string) (n : Z) : string := repeat_nat s (Z.to_nat n).

Fixpoint take_nat (n : nat) (s : string) : string :=
  match n, s with
  | O, _ => EmptyString
  | _, EmptyString => EmptyString
  | S n', String c s' => String c (take_nat n' s')
  end.

(** [s[:k]]: a negative [k] counts from the end. *)
Definition slice_to (s : string) (k : Z) : string :=
  if k <? 0 then take_nat (Z.to_nat (len s + k)) s
  else take_nat (Z.to_nat k) s.

(** [sep.join(l)]. *)
Definition join (sep : string) (l : list string) : string := String.concat sep l.

(** [x in l] for a list of strings. *)
Definition mem (x : string) (l : list string) : bool :=
  existsb (String.eqb x) l.

(** [str(n)] for an int. *)
Definition str_of_int (z : Z) : string := NilZero.string_of_int (Z.to_int z).

(** [repr] of a list of strings, as an f-string prints it. *)
Definition repr_str_list (l : list string) : string :=
  "[" ++ join ", " (map (fun s => "'" ++ s ++ "'") l) ++ "]".

(** [range(n)] as the number of iterations. *)
Definition range_len (n : Z) : nat := Z.to_nat n.

(** *** Dictionaries in insertion order *)

Section Dict.
Context {V : Type}.

Definition dict : Type := list (string * V).

Fixpoint get (d : dict) (k : string) : option V :=
  match d with
  | [] => None
  | (k', v) :: d' => if String.eqb k' k then Some v else get d' k
  end.

(** [d[k] = v]: a present key keeps its position, a new key goes last. *)
Fixpoint set (d : dict) (k : string) (v : V) : dict :=
  match d with
  | [] => [(k, v)]
  | (k', v') :: d' =>
      if String.eqb k' k then (k', v) :: d' else (k', v') :: set d' k v
  end.

Definition keys (d : dict) : list string := map fst d.
Definition values (d : dict) : list V := map snd d.
End Dict.
Arguments dict V : clear implicits.

(** *** Floats: IEEE 754 binary64 *)

Definition prec : Z := 53.
Definition emax : Z := 1024.

Definition float : Type := spec_float.

(** [float(n)] for an int: round to nearest, ties to even; an int beyond
    the largest float raises. *)
Definition float_of_int (n : Z) : result float :=
  match binary_normalize prec emax n 0 false with
  | S754_infinity _ =>
      raise (OverflowError "int too large to convert to float")
  | f => ret f
  end.

Definition fmul (x y : float) : float := SFmul prec emax x y.
Definition fdiv (x y : float) : float := SFdiv prec emax x y.

(** [int(x)] for a float: truncation towards zero. *)
Definition int_of_float (x : float) : result Z :=
  match x with
  | S754_zero _ => ret 0
  | S754_finite s m e =>
      let a := if 0 <=? e then Z.pos m * 2 ^ e else Z.pos m / 2 ^ (- e) in
      ret (if s then - a else a)
  | S754_infinity _ =>
      raise (OverflowError "cannot convert float infinity to integer")
  | S754_nan =>
      raise (ValueError "cannot convert float NaN to integer")
  end.

(** A number that is an int or a float, as the values of an [Enum]. *)
Inductive num : Type :=
| Int (z : Z)
| Float (f : float).

(** [n * v] for an int [n]: int arithmetic when [v] is an int, otherwise
    [n] is converted to a float first. *)
Definition int_mul (n : Z) (v : num) : result num :=
  match v with
  | Int z => ret (Int (n * z))
  | Float f => bind (float_of_int n) (fun x => ret (Float (fmul x f)))
  end.

(** [int(v)]. *)
Definition int_of (v : num) : result Z :=
  match v with
  | Int z => ret z
  | Float f => int_of_float f
  end.

(** The float [a / b] of two ints small enough to convert exactly. *)
Definition true_div (a b : Z) : float :=
  fdiv (binary_normalize prec emax a 0 false) (binary_normalize prec emax b 0 false).

End Py.

Notation "x <- m ;; k" := (Py.bind m (fun x => k))
  (at level 61, m at next level, right associativity).

(** ** [src/database/structure.py] *)

Module Structure.

Record MagiTableColumn : Type := {
  name : string;
  data_type : string;
  length : option Z;
  precision : option Z;
  primary_key : bool;
  unique : bool;
  not_null : bool;
  default : option string;
  comment : option string;
  no : option Z
}.

Record MagiTableIndex : Type := {
  index_name : string;
  index_columns : list string;
  index_unique : bool
}.

(** [table_name] is annotated [str], but the factory passes on whatever the
    source left in its own [table_name], which starts as [None]. *)
Record MagiTable : Type := {
  table_name : option string;
  table_comment : option string;
  table_schema : option string;
  columns : Py.dict MagiTableColumn;
  indexes : Py.dict MagiTableIndex
}.

Record MagiDDL : Type := {
  table : option MagiTable;
  schema_name : option string;
  tablespace : option string;
  storage_engine : option string;
  charset : option string;
  collation : option string;
  if_not_exists : bool;
  temporary : bool;
  options : Py.dict string
}.

(** [MagiDDL.__init__] *)
Definition MagiDDL_init : MagiDDL := {|
  table := None;
  schema_name := None;
  tablespace := None;
  storage_engine := None;
  charset := None;
  collation := None;
  if_not_exists := false;
  temporary := false;
  options := []
|}.

(** [ddl.table = t] *)
Definition set_table (ddl : MagiDDL) (t : MagiTable) : MagiDDL := {|
  table := Some t;
  schema_name := schema_name ddl;
  tablespace := tablespace ddl;
  storage_engine := storage_engine ddl;
  charset := charset ddl;
  collation := collation ddl;
  if_not_exists := if_not_exists ddl;
  temporary := temporary ddl;
  options := options ddl
|}.

(** [' '.join(parts)] raises when an item is [None]. *)
Definition join_opt_last (sep : string) (parts : list string) (last : option string)
  : Py.result string :=
  match last with
  | Some s => Py.ret (Py.join sep (parts ++ [s])%list)
  | None =>
      Py.raise (Py.TypeError
        ("sequence item " ++ Py.str_of_int (Z.of_nat (List.length parts))
         ++ ": expected str instance, NoneType found"))
  end.

(** [MagiDDL.get_ddl_string].  A [MagiTable] is an object without [__bool__]
    or [__len__], so [not self.table] holds only for [None]. *)
Definition get_ddl_string (self : MagiDDL) : Py.result string :=
  match table self with
  | None => Py.ret EmptyString
  | Some t =>
      let ddl_parts := ["CREATE"] in
      let ddl_parts :=
        if temporary self then (ddl_parts ++ ["TEMPORARY"])%list else ddl_parts in
      let ddl_parts := (ddl_parts ++ ["TABLE"])%list in
      let ddl_parts :=
        if if_not_exists self then (ddl_parts ++ ["IF NOT EXISTS"])%list else ddl_parts in
      let table_name :=
        if Py.truthy_opt_str (schema_name self)
        then
          match table_name t with
          | Some n => Some (Py.or_str (schema_name self) EmptyString ++ "." ++ n)
          | None => Some (Py.or_str (schema_name self) EmptyString ++ ".None")
          end
        else table_name t in
      join_opt_last " " ddl_parts table_name
  end.

End Structure.

(** ** [src/database/table_construct.py] *)

Module TableConstruct.
Import Structure.

(** A row of the [columns_view] data frame, one field per name of
    [DefineDataFrameColumns], each at the type [MagiTableColumn] declares
    for the attribute it is copied to. *)
Record Row : Type := {
  row_name : string;
  row_data_type : string;
  row_length : option Z;
  row_precision : option Z;
  row_primary_key : bool;
  row_unique : bool;
  row_not_null : bool;
  row_default : option string;
  row_comment : option string
}.

(** The attributes of a [TableConstruct] object. *)
Record State : Type := {
  self_table_name : option string;
  self_table_comment : option string;
  self_table_schema : option string;
  self_indexes : Py.dict MagiTableIndex;
  columns_view : list Row
}.

(** [TableConstruct.__init__] *)
Definition init : State := {|
  self_table_name := None;
  self_table_comment := None;
  self_table_schema := None;
  self_indexes := [];
  columns_view := []
|}.

(** The abstract methods.  A concrete source overrides all four; each one
    updates the object or raises. *)
Record Source : Type := {
  read_define : State -> Py.result State;
  read_define_schema : State -> Py.result State;
  read_define_columns : State -> Py.result State;
  read_define_indexes : State -> Py.result State
}.

(** The body every [read_define] in the repository has: the three readers
    in a fixed order. *)
Definition read_define_body
    (schema columns indexes : State -> Py.result State) (self : State)
  : Py.result State :=
  s1 <- schema self ;;
  s2 <- columns s1 ;;
  indexes s2.

(** The [iter_column] built in one iteration of the loop of
    [__extract_columns_to_magi_columns]. *)
Definition iter_column (row : Row) (index : Z) : MagiTableColumn := {|
  name := row_name row;
  data_type := row_data_type row;
  length := row_length row;
  precision := row_precision row;
  primary_key := row_primary_key row;
  unique := row_unique row;
  not_null := row_not_null row;
  default := row_default row;
  comment := row_comment row;
  no := Some (index + 1)
|}.

(** One iteration: [dictionary[iter_column.name] = iter_column]. *)
Definition extract_step (dictionary : Py.dict MagiTableColumn)
    (index : Z) (row : Row) : Py.dict MagiTableColumn :=
  Py.set dictionary (name (iter_column row index)) (iter_column row index).

(** The loop over [enumerate(self.columns_view.iterrows())], from [index]. *)
Fixpoint extract_loop (rows : list Row) (index : Z)
    (dictionary : Py.dict MagiTableColumn) : Py.dict MagiTableColumn :=
  match rows with
  | [] => dictionary
  | row :: rows' => extract_loop rows' (index + 1) (extract_step dictionary index row)
  end.

Definition extract_columns_to_magi_columns (self : State)
  : Py.dict MagiTableColumn :=
  extract_loop (columns_view self) 0 [].

(** [magi_table_factory]: the table it returns, with the object as
    [read_define] left it. *)
Definition magi_table_factory (src : Source) (self : State)
  : Py.result (MagiTable * State) :=
  self' <- read_define src self ;;
  Py.ret ({| table_name := self_table_name self';
             table_comment := self_table_comment self';
             table_schema := self_table_schema self';
             columns := extract_columns_to_magi_columns self';
             indexes := self_indexes self' |},
          self').

End TableConstruct.

(** ** [src/database/ddl_construct.py] *)

Module DDLConstruct.
Import Structure.

Definition SUPPORTED_DATABASES : list string := ["oracle"; "postgres"].

Definition _build_column_definition (column : MagiTableColumn) (database : string)
  : string :=
  let parts1 :=
    match length column with
    | Some l =>
        if negb (l =? 0) && Py.mem (Py.lower (data_type column)) ["varchar"; "char"]
        then data_type column ++ "(" ++ Py.str_of_int l ++ ")"
        else data_type column
    | None => data_type column
    end in
  let parts := [name column; parts1] in
  let parts := if primary_key column then (parts ++ ["PRIMARY KEY"])%list else parts in
  let parts := if not_null column then (parts ++ ["NOT NULL"])%list else parts in
  let parts :=
    match default column with
    | Some d => (parts ++ [("DEFAULT " ++ d)%string])%list
    | None => parts
    end in
  Py.join " " parts.

Definition _build_index_definition (table_name : string) (index : MagiTableIndex)
  : string :=
  let index_type := if index_unique index then "UNIQUE INDEX" else "INDEX" in
  let columns := Py.join ", " (index_columns index) in
  "CREATE " ++ index_type ++ " " ++ index_name index
    ++ " ON " ++ table_name ++ " (" ++ columns ++ ")".

(** [f"{x}"] of an optional string. *)
Definition fmt_opt (o : option string) : string :=
  match o with Some s => s | None => "None" end.

Definition newline : string := String (ascii_of_nat 10) EmptyString.

(** The [COMMENT ON COLUMN] statements, appended in the order of the
    columns. *)
Fixpoint column_comments (table_name : string) (cols : list MagiTableColumn)
  : string :=
  match cols with
  | [] => EmptyString
  | column :: cols' =>
      (if Py.truthy_opt_str (comment column)
       then ";" ++ newline ++ "COMMENT ON COLUMN " ++ table_name ++ "."
            ++ name column ++ " IS '" ++ fmt_opt (comment column) ++ "'"
       else EmptyString)
      ++ column_comments table_name cols'
  end.

(** The text built once the database has passed the check. *)
Definition build_ddl (magi_table : MagiTable) (database : string)
  : Py.result string :=
  let ddl := set_table MagiDDL_init magi_table in
  ddl_str <- get_ddl_string ddl ;;
  let tn := fmt_opt (table_name magi_table) in
  let column_defs :=
    map (fun col => _build_column_definition col database)
        (Py.values (columns magi_table)) in
  let ddl_str :=
    ddl_str ++ " (" ++ newline ++ "    "
      ++ Py.join ("," ++ newline ++ "    ") column_defs ++ newline ++ ")" in
  let ddl_str :=
    if Py.truthy_opt_str (table_comment magi_table)
    then
      if String.eqb database "oracle"
      then ddl_str ++ newline ++ "COMMENT ON TABLE " ++ tn ++ " IS '"
             ++ fmt_opt (table_comment magi_table) ++ "'"
      else ddl_str ++ newline ++ "COMMENT ON TABLE " ++ tn ++ " IS '"
             ++ fmt_opt (table_comment magi_table) ++ "'"
    else ddl_str in
  let ddl_str := ddl_str ++ column_comments tn (Py.values (columns magi_table)) in
  let ddl_str :=
    match indexes magi_table with
    | [] => ddl_str
    | _ =>
        let index_statements :=
          map (_build_index_definition tn) (Py.values (indexes magi_table)) in
        ddl_str ++ ";" ++ newline ++ Py.join (";" ++ newline) index_statements
    end in
  Py.ret ddl_str.

Definition unsupported (database : string) : Py.exn :=
  Py.ValueError
    ("Unsupported database: " ++ database ++ ". Supported databases: "
     ++ Py.repr_str_list SUPPORTED_DATABASES).

Definition create_table (magi_table : MagiTable) (database : string)
  : Py.result string :=
  if negb (Py.mem (Py.lower database) SUPPORTED_DATABASES)
  then Py.raise (unsupported database)
  else build_ddl magi_table database.

End DDLConstruct.

(** ** [src/data_constuct.py] *)

Module TestDataGenerator.
Import Structure.

Inductive LengthRatio : Type := ONE_THIRD | HALF | FULL.

(** The values of the enumeration: [1/3] and [1/2] are floats, [1] is an int. *)
Definition LengthRatio_value (r : LengthRatio) : Py.num :=
  match r with
  | ONE_THIRD => Py.Float (Py.true_div 1 3)
  | HALF => Py.Float (Py.true_div 1 2)
  | FULL => Py.Int 1
  end.

Inductive TextFillMode : Type := ONLY_N | COMMENT_PLUS_N.

Definition TextFillMode_eqb (a b : TextFillMode) : bool :=
  match a, b with
  | ONLY_N, ONLY_N | COMMENT_PLUS_N, COMMENT_PLUS_N => true
  | _, _ => false
  end.

(** A row of the generated data frame, one field per name of
    [DefineDataFrameColumns]. *)
Record FrameRow : Type := {
  df_name : string;
  df_data_type : string;
  df_length : option Z;
  df_precision : option Z;
  df_primary_key : bool;
  df_unique : bool;
  df_not_null : bool;
  df_default : option string;
  df_comment : option string;
  df_generated_value : string
}.

Definition DataFrame : Type := list FrameRow.

(** The attributes of a [TestDataGenerator] object. *)
Record State : Type := {
  data_frame : option DataFrame;
  length_ratio : LengthRatio;
  text_fill_mode : TextFillMode
}.

Definition ORACLE_MAX_DATE : string := "DATE '9999-12-31'".

(** [TestDataGenerator.__init__] *)
Definition init (length_ratio : LengthRatio) (text_fill_mode : TextFillMode)
  : State :=
  {| data_frame := None;
     length_ratio := length_ratio;
     text_fill_mode := text_fill_mode |}.

Definition set_length_ratio (self : State) (ratio : LengthRatio) : State :=
  {| data_frame := data_frame self;
     length_ratio := ratio;
     text_fill_mode := text_fill_mode self |}.

Definition set_text_fill_mode (self : State) (mode : TextFillMode) : State :=
  {| data_frame := data_frame self;
     length_ratio := length_ratio self;
     text_fill_mode := mode |}.

Definition set_data_frame (self : State) (df : DataFrame) : State :=
  {| data_frame := Some df;
     length_ratio := length_ratio self;
     text_fill_mode := text_fill_mode self |}.

(** [load_dataframe_from_csv], given the frame the file parses to. *)
Definition load_dataframe_from_csv (self : State) (parsed : DataFrame)
  : DataFrame * State :=
  (parsed, set_data_frame self parsed).

Definition calculate_actual_length (self : State) (max_length : Z)
  : Py.result Z :=
  if max_length <=? 0 then Py.ret 1
  else
    product <- Py.int_mul max_length (LengthRatio_value (length_ratio self)) ;;
    actual_length <- Py.int_of product ;;
    Py.ret (Z.max 1 actual_length).

Definition quote : ascii := ascii_of_nat 39.
Definition dquote : ascii := ascii_of_nat 34.

Definition generate_text_value (self : State) (column : MagiTableColumn)
  : Py.result string :=
  let max_length := Py.or_int (length column) 1 in
  actual_length <- calculate_actual_length self max_length ;;
  let result_text :=
    if TextFillMode_eqb (text_fill_mode self) COMMENT_PLUS_N
    then
      let comment := Py.or_str (comment column) EmptyString in
      let clean_comment := Py.remove_char dquote (Py.remove_char quote comment) in
      if Py.truthy_str clean_comment
      then
        let comment_length := Py.len clean_comment in
        if comment_length >=? actual_length
        then Py.slice_to clean_comment actual_length
        else
          let n_count := actual_length - comment_length in
          clean_comment ++ Py.repeat "N" n_count
      else Py.repeat "N" actual_length
    else Py.repeat "N" actual_length in
  Py.ret ("'" ++ result_text ++ "'").

Definition generate_number_value (self : State) (column : MagiTableColumn)
  : Py.result string :=
  let max_length := Py.or_int (length column) 9 in
  actual_length <- calculate_actual_length self max_length ;;
  Py.ret (Py.repeat "9" actual_length).

Definition text_types : list string :=
  ["VARCHAR"; "VARCHAR2"; "CHAR"; "NVARCHAR"; "NCHAR"; "TEXT"; "CLOB"].
Definition number_types : list string :=
  ["INTEGER"; "INT"; "NUMBER"; "DECIMAL"; "NUMERIC"; "FLOAT"; "DOUBLE"].
Definition date_types : list string := ["DATE"; "TIMESTAMP"; "DATETIME"].
Definition bool_types : list string := ["BOOLEAN"; "BOOL"].

Definition generate_default_value (self : State) (column : MagiTableColumn)
  : Py.result string :=
  let data_type := Py.upper (data_type column) in
  if Py.mem data_type text_types then generate_text_value self column
  else if Py.mem data_type number_types then generate_number_value self column
  else if Py.mem data_type date_types then Py.ret ORACLE_MAX_DATE
  else if Py.mem data_type bool_types then Py.ret "TRUE"
  else Py.ret "NULL".

(** [sorted(..., key=lambda x: x.no or 0)]: a stable sort. *)
Definition sort_key (column : MagiTableColumn) : Z := Py.or_int (no column) 0.

Fixpoint insert_sorted (x : MagiTableColumn) (l : list MagiTableColumn)
  : list MagiTableColumn :=
  match l with
  | [] => [x]
  | y :: l' =>
      if sort_key x <=? sort_key y then x :: y :: l' else y :: insert_sorted x l'
  end.

Definition sorted (l : list MagiTableColumn) : list MagiTableColumn :=
  fold_right insert_sorted [] l.

(** The value chosen for one column in the loop of [generate_dataframe]. *)
Definition generated_value_of (self : State) (column : MagiTableColumn)
  : Py.result string :=
  match default column with
  | Some d =>
      if Py.truthy_str d && negb (String.eqb d "NULL") then Py.ret d
      else generate_default_value self column
  | None => generate_default_value self column
  end.

Definition frame_row (column : MagiTableColumn) (generated_value : string)
  : FrameRow :=
  {| df_name := name column;
     df_data_type := data_type column;
     df_length := length column;
     df_precision := precision column;
     df_primary_key := primary_key column;
     df_unique := unique column;
     df_not_null := not_null column;
     df_default := default column;
     df_comment := comment column;
     df_generated_value := generated_value |}.

(** The loop of [generate_dataframe] over the sorted columns. *)
Fixpoint fill_rows (self : State) (cols : list MagiTableColumn)
  : Py.result DataFrame :=
  match cols with
  | [] => Py.ret []
  | column :: cols' =>
      generated_value <- generated_value_of self column ;;
      rest <- fill_rows self cols' ;;
      Py.ret (frame_row column generated_value :: rest)
  end.

(** [generate_dataframe]: the frame it returns, and the object holding it. *)
Definition generate_dataframe (self : State) (table : MagiTable)
  : Py.result (DataFrame * State) :=
  let sorted_columns := sorted (Py.values (columns table)) in
  df <- fill_rows self sorted_columns ;;
  Py.ret (df, set_data_frame self df).

Definition not_loaded : Py.exn :=
  Py.ValueError "DataFrame未加载，请先调用generate_dataframe或load_dataframe_from_csv方法".

Definition full_table_name (table_name : string) (schema_name : option string)
  : string :=
  if Py.truthy_opt_str schema_name
  then Py.or_str schema_name EmptyString ++ "." ++ table_name
  else table_name.

(** A file written by [to_csv]: its path, its header and its rows. *)
Record CsvFile : Type := {
  csv_path : string;
  csv_header : string;
  csv_rows : list string
}.

Definition export (output_csv : option string) (header : string)
    (rows : list string) : option CsvFile :=
  if Py.truthy_opt_str output_csv
  then Some {| csv_path := Py.or_str output_csv EmptyString;
               csv_header := header;
               csv_rows := rows |}
  else None.

(** The statement appended in one iteration of the loop of
    [generate_insert_from_dataframe]. *)
Definition insert_sql (full_table_name : string)
    (column_names generated_values : list string) : string :=
  let columns_str := Py.join ", " column_names in
  let values_str := Py.join ", " generated_values in
  "INSERT INTO " ++ full_table_name ++ " (" ++ columns_str
    ++ ") VALUES (" ++ values_str ++ ");".

(** [for row_index in range(n): l.append(item)] *)
Fixpoint append_each {A : Type} (n : nat) (item : A) (l : list A) : list A :=
  match n with
  | O => l
  | S n' => append_each n' item (l ++ [item])%list
  end.

(** [generate_insert_from_dataframe]: the statements returned and the file
    written, if any. *)
Definition generate_insert_from_dataframe (self : State) (table_name : string)
    (schema_name : option string) (rows_count : Z) (output_csv : option string)
  : Py.result (list string * option CsvFile) :=
  match data_frame self with
  | None => Py.raise not_loaded
  | Some df =>
      let full_table_name := full_table_name table_name schema_name in
      let column_names := map df_name df in
      let generated_values := map df_generated_value df in
      let insert_statements :=
        append_each (Py.range_len rows_count)
          (insert_sql full_table_name column_names generated_values) [] in
      Py.ret (insert_statements,
              export output_csv "insert_statements" insert_statements)
  end.

(** The tuple appended in one iteration of the loop of
    [generate_batch_insert_from_dataframe]. *)
Definition values_tuple (generated_values : list string) : string :=
  "(" ++ Py.join ", " generated_values ++ ")".

Definition batch_separator : string := "," ++ DDLConstruct.newline ++ "  ".

Definition generate_batch_insert_from_dataframe (self : State)
    (table_name : string) (schema_name : option string) (rows_count : Z)
    (output_csv : option string)
  : Py.result (string * option CsvFile) :=
  match data_frame self with
  | None => Py.raise not_loaded
  | Some df =>
      let full_table_name := full_table_name table_name schema_name in
      let column_names := map df_name df in
      let generated_values := map df_generated_value df in
      let columns_str := Py.join ", " column_names in
      let values_list :=
        append_each (Py.range_len rows_count) (values_tuple generated_values) [] in
      let batch_values_str := Py.join batch_separator values_list in
      let batch_insert_sql :=
        "INSERT INTO " ++ full_table_name ++ " (" ++ columns_str ++ ") "
          ++ DDLConstruct.newline ++ "VALUES " ++ DDLConstruct.newline ++ "  "
          ++ batch_values_str ++ ";" in
      Py.ret (batch_insert_sql,
              export output_csv "batch_insert_statement" [batch_insert_sql])
  end.

Definition not_generated : Py.exn :=
  Py.ValueError "DataFrame未生成，请先调用generate_dataframe方法".

(** [save_dataframe_to_csv]: the file written, as its path and the frame it
    holds. *)
Definition save_dataframe_to_csv (self : State) (file_path : string)
  : Py.result (string * DataFrame) :=
  match data_frame self with
  | None => Py.raise not_generated
  | Some df => Py.ret (file_path, df)
  end.

End TestDataGenerator.

(** ** Sample inputs *)

Module Samples.
Import Structure.

Definition column (name data_type : string) (length : option Z)
    (primary_key unique not_null : bool) (default comment : option string)
    (no : option Z) : MagiTableColumn :=
  {| name := name; data_type := data_type; length := length;
     precision := None; primary_key := primary_key; unique := unique;
     not_null := not_null; default := default; comment := comment; no := no |}.

(** The columns of the table built under [__main__] in [data_constuct.py],
    with the comments of the demo data of [table_construct.py]. *)
Definition id_column : MagiTableColumn :=
  column "id" "INTEGER" (Some 10) true false true None (Some "Primary key") (Some 1).
Definition name_column : MagiTableColumn :=
  column "name" "VARCHAR" (Some 50) false false true None (Some "User name") (Some 2).
Definition email_column : MagiTableColumn :=
  column "email" "VARCHAR" (Some 100) false true false None (Some "Email address") (Some 3).
Definition amount_column : MagiTableColumn :=
  column "amount" "NUMBER" (Some 15) false false false None None (Some 4).
Definition created_date_column : MagiTableColumn :=
  column "created_date" "DATE" None false false false (Some "SYSDATE") None (Some 5).

Definition test_table : MagiTable :=
  {| table_name := Some "test_table";
     table_comment := None;
     table_schema := Some "test_schema";
     columns := [("id", id_column); ("name", name_column); ("email", email_column);
                 ("amount", amount_column); ("created_date", created_date_column)];
     indexes := [] |}.

(** A table whose name was never set. *)
Definition unnamed_table : MagiTable :=
  {| table_name := None; table_comment := None; table_schema := None;
     columns := [("id", id_column)]; indexes := [] |}.

(** A generator that holds a frame of two rows. *)
Definition small_frame : TestDataGenerator.DataFrame :=
  [TestDataGenerator.frame_row id_column "999";
   TestDataGenerator.frame_row name_column "'NNNNNNNNNNNNNNNN'"].

Definition loaded_generator : TestDataGenerator.State :=
  TestDataGenerator.set_data_frame
    (TestDataGenerator.init TestDataGenerator.ONE_THIRD TestDataGenerator.ONLY_N)
    small_frame.

(** Rows of a [columns_view], after the demo data of [generate_csv_data]. *)
Definition row (name data_type : string) (length : option Z)
    (primary_key unique not_null : bool) (default comment : option string)
  : TableConstruct.Row :=
  {| TableConstruct.row_name := name;
     TableConstruct.row_data_type := data_type;
     TableConstruct.row_length := length;
     TableConstruct.row_precision := None;
     TableConstruct.row_primary_key := primary_key;
     TableConstruct.row_unique := unique;
     TableConstruct.row_not_null := not_null;
     TableConstruct.row_default := default;
     TableConstruct.row_comment := comment |}.

Definition id_row : TableConstruct.Row :=
  row "id" "INTEGER" None true false true None (Some "Primary key").
Definition name_row : TableConstruct.Row :=
  row "name" "VARCHAR" (Some 100) false false true None (Some "User name").
Definition email_row : TableConstruct.Row :=
  row "email" "VARCHAR" (Some 255) false true true None (Some "Email address").
Definition status_row : TableConstruct.Row :=
  row "status" "CHAR" (Some 1) false false true (Some "'A'") (Some "Record status").
(** A second row named [id]. *)
Definition id_again_row : TableConstruct.Row :=
  row "id" "VARCHAR" (Some 36) false false false None (Some "External id").

Definition set_columns_view (self : TableConstruct.State)
    (rows : list TableConstruct.Row) : TableConstruct.State :=
  {| TableConstruct.self_table_name := TableConstruct.self_table_name self;
     TableConstruct.self_table_comment := TableConstruct.self_table_comment self;
     TableConstruct.self_table_schema := TableConstruct.self_table_schema self;
     TableConstruct.self_indexes := TableConstruct.self_indexes self;
     TableConstruct.columns_view := rows |}.

Definition set_schema (self : TableConstruct.State)
    (table_name table_comment table_schema : option string) : TableConstruct.State :=
  {| TableConstruct.self_table_name := table_name;
     TableConstruct.self_table_comment := table_comment;
     TableConstruct.self_table_schema := table_schema;
     TableConstruct.self_indexes := TableConstruct.self_indexes self;
     TableConstruct.columns_view := TableConstruct.columns_view self |}.

(** A source in the shape of [DemoTableLConstructImpl], for given rows and
    a given schema reader. *)
Definition source_of (schema : TableConstruct.State -> Py.result TableConstruct.State)
    (rows : list TableConstruct.Row) : TableConstruct.Source :=
  let columns := fun self => Py.ret (set_columns_view self rows) in
  let indexes := fun self => Py.ret self in
  {| TableConstruct.read_define :=
       TableConstruct.read_define_body schema columns indexes;
     TableConstruct.read_define_schema := schema;
     TableConstruct.read_define_columns := columns;
     TableConstruct.read_define_indexes := indexes |}.

(** [DemoTableLConstructImpl.read_define_schema] *)
Definition demo_schema (self : TableConstruct.State)
  : Py.result TableConstruct.State :=
  Py.ret (set_schema self (Some "MagiOrigin") (Some "Test Table") (Some "luvmagi")).

(** A schema reader that sets nothing, as a body of [...] does. *)
Definition silent_schema (self : TableConstruct.State)
  : Py.result TableConstruct.State :=
  Py.ret self.

Definition demo_source : TableConstruct.Source :=
  source_of demo_schema [id_row; name_row; email_row; status_row].

(** The demo source with its schema reader left empty. *)
Definition unnamed_source : TableConstruct.Source :=
  source_of silent_schema [id_row; name_row; email_row; status_row].

(** The demo source with a repeated column name. *)
Definition duplicate_source : TableConstruct.Source :=
  source_of demo_schema [id_row; name_row; id_again_row].

(** The object of [duplicate_source] once [read_define] has run. *)
Definition duplicate_state : TableConstruct.State :=
  set_columns_view
    (set_schema TableConstruct.init
       (Some "MagiOrigin") (Some "Test Table") (Some "luvmagi"))
    [id_row; name_row; id_again_row].

(** A column of the standard Oracle string type. *)
Definition code_column : MagiTableColumn :=
  column "code" "VARCHAR2" (Some 100) false false true None None (Some 6).

(** The [status] column of the demo data of [generate_csv_data]. *)
Definition status_column : MagiTableColumn :=
  column "status" "CHAR" (Some 1) false false true (Some "'A'")
    (Some "Record status") (Some 5).

(** A character column whose default is the SQL literal for O'Brien. *)
Definition owner_column : MagiTableColumn :=
  column "owner" "VARCHAR" (Some 20) false false false (Some "'O''Brien'")
    (Some "Owner") (Some 7).

(** A numeric column whose length no float can hold. *)
Definition huge_column : MagiTableColumn :=
  column "big" "NUMBER" (Some (2 ^ 1024)) false false false None None (Some 2).

Definition huge_table : MagiTable :=
  {| table_name := Some "big_table"; table_comment := None; table_schema := None;
     columns := [("id", id_column); ("big", huge_column)]; indexes := [] |}.

(** A numeric column of the same length, with a default of its own. *)
Definition huge_default_column : MagiTableColumn :=
  column "big" "NUMBER" (Some (2 ^ 1024)) false false false (Some "0") None (Some 5).

(** A table every column of which has a default. *)
Definition defaults_table : MagiTable :=
  {| table_name := Some "defaults"; table_comment := None; table_schema := None;
     columns := [("owner", owner_column); ("status", status_column);
                 ("big", huge_default_column)];
     indexes := [] |}.

End Samples.

(** ** Vocabulary of the properties *)

Module Spec.
Import Structure.

(** The dialect is in the supported set, ignoring case. *)
Definition supported (database : string) : Prop :=
  Py.lower database = "oracle" \/ Py.lower database = "postgres".

(** The ordinals of the columns, in the order of the mapping, are 1, 2, ...
    up to the number of columns. *)
Definition ordinals_contiguous (cols : Py.dict MagiTableColumn) : Prop :=
  map no (Py.values cols)
  = map (fun i => Some (Z.of_nat i)) (seq 1 (List.length cols)).

(** The two types to which the DDL generator gives a length. *)
Definition sized_type (column : MagiTableColumn) : Prop :=
  Py.lower (data_type column) = "varchar" \/ Py.lower (data_type column) = "char".

(** The column has a length that is neither absent nor zero. *)
Definition declared_length (column : MagiTableColumn) (l : Z) : Prop :=
  length column = Some l /\ l <> 0.

(** A clause that is present or not. *)
Definition optional (present : bool) (clause : string) : list string :=
  if present then [clause] else [].

Definition optional_default (default : option string) : list string :=
  match default with
  | Some d => ["DEFAULT " ++ d]
  | None => []
  end.

(** The types the value generator takes for character types. *)
Definition character_family (column : MagiTableColumn) : Prop :=
  Py.mem (Py.upper (data_type column)) TestDataGenerator.text_types = true.

(** The types the value generator takes for numeric, date or boolean types. *)
Definition number_date_bool (column : MagiTableColumn) : Prop :=
  Py.mem (Py.upper (data_type column))
    (TestDataGenerator.number_types ++ TestDataGenerator.date_types
       ++ TestDataGenerator.bool_types)%list = true.

(** Does the string hold the character? *)
Fixpoint has_char (c : ascii) (s : string) : bool :=
  match s with
  | EmptyString => false
  | String a s' => Ascii.eqb a c || has_char c s'
  end.

(** Does the string hold a single or a double quote? *)
Definition has_quote (s : string) : bool :=
  has_char TestDataGenerator.quote s || has_char TestDataGenerator.dquote s.

(** The comment of a column with both kinds of quote removed. *)
Definition sanitized_comment (column : MagiTableColumn) : string :=
  Py.remove_char TestDataGenerator.dquote
    (Py.remove_char TestDataGenerator.quote (Py.or_str (comment column) EmptyString)).

(** The column has a default that takes the place of the generated value. *)
Definition default_overrides (column : MagiTableColumn) (d : string) : Prop :=
  default column = Some d /\ d <> EmptyString /\ d <> "NULL".

(** The frame of a run of [generate_dataframe], if it returned one. *)
Definition frame_of (r : Py.result (TestDataGenerator.DataFrame * TestDataGenerator.State))
  : Py.result TestDataGenerator.DataFrame :=
  match r with
  | inl e => inl e
  | inr (df, _) => inr df
  end.

(** Round [m / 2^k] to the nearest integer, a tie to the even one. *)
Definition rne_shift (m k : Z) : Z :=
  let q := m / 2 ^ k in
  let r := m mod 2 ^ k in
  let h := 2 ^ (k - 1) in
  if r <? h then q
  else if h <? r then q + 1
  else if Z.even q then q else q + 1.

(** The mantissas of the floats [1/3] and [1/2]. *)
Definition third_mantissa : positive := 6004799503160661.
Definition half_mantissa : positive := 4503599627370496.

(** The length ratio as a fraction [1 / den]. *)
Definition ratio_den (r : TestDataGenerator.LengthRatio) : Z :=
  match r with
  | TestDataGenerator.ONE_THIRD => 3
  | TestDataGenerator.HALF => 2
  | TestDataGenerator.FULL => 1
  end.

(** The columns of a listing of rows, one per row and in row order, with
    ordinals counted from [index + 1]. *)
Fixpoint columns_in_order (rows : list TableConstruct.Row) (index : Z)
  : Py.dict MagiTableColumn :=
  match rows with
  | [] => []
  | row :: rows' =>
      (TableConstruct.row_name row, TableConstruct.iter_column row index)
        :: columns_in_order rows' (index + 1)
  end.

(** The order of the sort of [generate_dataframe]. *)
Definition key_le (a b : MagiTableColumn) : Prop :=
  TestDataGenerator.sort_key a <= TestDataGenerator.sort_key b.

Definition has_key (k : Z) (c : MagiTableColumn) : bool :=
  TestDataGenerator.sort_key c =? k.

(** A column with another data type, another comment; a table with another
    schema. *)
Definition with_data_type (c : MagiTableColumn) (t : string) : MagiTableColumn :=
  {| name := name c; data_type := t; length := length c;
     precision := precision c; primary_key := primary_key c; unique := unique c;
     not_null := not_null c; default := default c; comment := comment c;
     no := no c |}.

Definition with_comment (c : MagiTableColumn) (x : option string) : MagiTableColumn :=
  {| name := name c; data_type := data_type c; length := length c;
     precision := precision c; primary_key := primary_key c; unique := unique c;
     not_null := not_null c; default := default c; comment := x;
     no := no c |}.

Definition with_schema (t : MagiTable) (s : option string) : MagiTable :=
  {| table_name := table_name t; table_comment := table_comment t;
     table_schema := s; columns := columns t; indexes := indexes t |}.

(** The frame row [r] is the row of the column [c]: it copies the column and
    holds the value generated for it. *)
Definition row_of (g : TestDataGenerator.State) (c : MagiTableColumn)
    (r : TestDataGenerator.FrameRow) : Prop :=
  TestDataGenerator.generated_value_of g c
  = inr (TestDataGenerator.df_generated_value r)
  /\ r = TestDataGenerator.frame_row c (TestDataGenerator.df_generated_value r).

(** The file an INSERT builder writes for [output_csv]: none when the path is
    absent or empty. *)
Definition written (output_csv : option string) (header : string)
    (rows : list string) (file : option TestDataGenerator.CsvFile) : Prop :=
  match output_csv with
  | Some (String c p) =>
      file = Some {| TestDataGenerator.csv_path := String c p;
                     TestDataGenerator.csv_header := header;
                     TestDataGenerator.csv_rows := rows |}
  | _ => file = None
  end.

(** The types the value generator takes for numeric types. *)
Definition number_family (column : MagiTableColumn) : Prop :=
  Py.mem (Py.upper (data_type column)) TestDataGenerator.number_types = true.

(** A table has no comment of its own, none on a column, and no index. *)
Definition plain_table (t : MagiTable) : Prop :=
  Py.truthy_opt_str (table_comment t) = false
  /\ Forall (fun c => Py.truthy_opt_str (comment c) = false) (Py.values (columns t))
  /\ indexes t = [].

(** The [CREATE TABLE] statement of a table named [n], one clause per column. *)
Definition create_statement (n : string) (cols : list MagiTableColumn)
    (database : string) : string :=
  "CREATE TABLE " ++ n ++ " (" ++ DDLConstruct.newline ++ "    "
    ++ Py.join ("," ++ DDLConstruct.newline ++ "    ")
         (map (fun c => DDLConstruct._build_column_definition c database) cols)
    ++ DDLConstruct.newline ++ ")".

(** Statements written one after the other. *)
Fixpoint statements (l : list string) : string :=
  match l with
  | [] => EmptyString
  | s :: l' => s ++ statements l'
  end.

Definition has_comment (c : MagiTableColumn) : bool :=
  Py.truthy_opt_str (comment c).

(** The statement for the comment of the table, led by a line break alone. *)
Definition table_comment_statement (n : string) (t : MagiTable) : string :=
  DDLConstruct.newline ++ "COMMENT ON TABLE " ++ n ++ " IS '"
    ++ DDLConstruct.fmt_opt (table_comment t) ++ "'".

(** The statement for the comment of a column, led by a semicolon. *)
Definition column_comment_statement (n : string) (c : MagiTableColumn) : string :=
  ";" ++ DDLConstruct.newline ++ "COMMENT ON COLUMN " ++ n ++ "." ++ name c
    ++ " IS '" ++ DDLConstruct.fmt_opt (comment c) ++ "'".

(** The statement of an index, led by a semicolon. *)
Definition index_statement (n : string) (i : MagiTableIndex) : string :=
  ";" ++ DDLConstruct.newline ++ DDLConstruct._build_index_definition n i.

(** The row of a column whose value is its default. *)
Definition default_row (c : MagiTableColumn) : TestDataGenerator.FrameRow :=
  TestDataGenerator.frame_row c (Py.or_str (default c) EmptyString).

(** The ratio [r] is at most the ratio [r']. *)
Definition ratio_le (r r' : TestDataGenerator.LengthRatio) : Prop :=
  ratio_den r' <= ratio_den r.

End Spec.
Import Spec.

(** ** Properties *)

(** *** The dialect check of [create_table] *)

Section DialectCheck.
Import Structure DDLConstruct.

Lemma mem_supported (database : string) :
  Py.mem (Py.lower database) SUPPORTED_DATABASES = true <-> supported database.
Proof.
  unfold supported, SUPPORTED_DATABASES, Py.mem; simpl.
  rewrite !orb_true_iff, !String.eqb_eq. intuition discriminate.
Qed.

Lemma build_ddl_named (t : MagiTable) (database n : string) :
  table_name t = Some n -> exists text, build_ddl t database = inr text.
Proof.
  intros Hn. unfold build_ddl, get_ddl_string; simpl. rewrite Hn; simpl.
  eexists; reflexivity.
Qed.

Lemma build_ddl_error (t : MagiTable) (database : string) (e : Py.exn) :
  build_ddl t database = inl e -> exists msg, e = Py.TypeError msg.
Proof.
  unfold build_ddl, get_ddl_string; simpl.
  destruct (table_name t); simpl; intros H; inversion H.
  eexists; reflexivity.
Qed.

End DialectCheck.

(** C2.  For every table and every dialect outside oracle and postgres,
    compared in lower case, [create_table] raises the unsupported-database
    error and returns no text; the error is the same whatever the table is,
    even for a table whose DDL cannot be built, so the check comes before any
    text.  For a dialect in the set the unsupported-database error is never
    raised, and a table that has a name yields text. *)
Theorem create_table_dialect_check (t : Structure.MagiTable) (database : string) :
  (~ supported database ->
     DDLConstruct.create_table t database = inl (DDLConstruct.unsupported database))
  /\ (supported database ->
        (forall msg, DDLConstruct.create_table t database <> inl (Py.ValueError msg))
        /\ (forall n, Structure.table_name t = Some n ->
              exists text, DDLConstruct.create_table t database = inr text)).
Proof.
  unfold DDLConstruct.create_table.
  destruct (Py.mem (Py.lower database) DDLConstruct.SUPPORTED_DATABASES) eqn:Hm; simpl.
  - apply mem_supported in Hm. split; [tauto|]. intros _. split.
    + intros msg H. apply build_ddl_error in H. destruct H as [m H]. discriminate.
    + intros n Hn. eapply build_ddl_named; eassumption.
  - split; [reflexivity|]. intros Hs. apply mem_supported in Hs. congruence.
Qed.

Lemma create_table_dialect_check_witness :
  ~ supported "mysql"
  /\ DDLConstruct.create_table Samples.unnamed_table "mysql"
     = inl (DDLConstruct.unsupported "mysql")
  /\ supported "Postgres"
  /\ exists text, DDLConstruct.create_table Samples.test_table "Postgres" = inr text.
Proof.
  assert (Hn : ~ supported "mysql") by (intros [H|H]; discriminate H).
  assert (Hs : supported "Postgres") by (right; reflexivity).
  split; [exact Hn|]. split.
  - exact (proj1 (create_table_dialect_check Samples.unnamed_table "mysql") Hn).
  - split; [exact Hs|].
    exact (proj2 (proj2 (create_table_dialect_check Samples.test_table "Postgres") Hs)
             "test_table" eq_refl).
Defined.

(** *** The INSERT builders *)

Section InsertBuilders.
Import TestDataGenerator.

Lemma append_each_repeat {A : Type} (n : nat) (item : A) (l : list A) :
  append_each n item l = (l ++ List.repeat item n)%list.
Proof.
  revert l. induction n as [|n IH]; intros l; simpl.
  - now rewrite app_nil_r.
  - rewrite IH, <- app_assoc. reflexivity.
Qed.

Lemma in_repeat_eq {A : Type} (x y : A) (n : nat) :
  In y (List.repeat x n) -> y = x.
Proof. intros H. now apply repeat_spec in H. Qed.

End InsertBuilders.

(** C8.  While the data frame of the generator is absent, the single-row
    builder and the batch builder both raise the not-loaded [ValueError] and
    return no statement, whatever their arguments. *)
Theorem insert_requires_data_frame (self : TestDataGenerator.State)
    (table_name : string) (schema_name : option string) (rows_count : Z)
    (output_csv : option string) :
  TestDataGenerator.data_frame self = None ->
  TestDataGenerator.generate_insert_from_dataframe
    self table_name schema_name rows_count output_csv
    = inl TestDataGenerator.not_loaded
  /\ TestDataGenerator.generate_batch_insert_from_dataframe
       self table_name schema_name rows_count output_csv
     = inl TestDataGenerator.not_loaded.
Proof.
  intros H.
  unfold TestDataGenerator.generate_insert_from_dataframe,
    TestDataGenerator.generate_batch_insert_from_dataframe.
  rewrite H. split; reflexivity.
Qed.

Lemma insert_requires_data_frame_witness :
  let self := TestDataGenerator.init TestDataGenerator.FULL TestDataGenerator.ONLY_N in
  TestDataGenerator.generate_insert_from_dataframe self "test_table" None 1 None
    = inl TestDataGenerator.not_loaded
  /\ TestDataGenerator.generate_batch_insert_from_dataframe self "test_table" None 1 None
     = inl TestDataGenerator.not_loaded.
Proof.
  exact (insert_requires_data_frame
           (TestDataGenerator.init TestDataGenerator.FULL TestDataGenerator.ONLY_N)
           "test_table" None 1 None eq_refl).
Defined.

(** C7.  With a data frame present and a row count [n >= 1], the single-row
    builder returns a list of exactly [n] statements, each of them the same
    [INSERT INTO t (cols) VALUES (literals);], and the batch builder returns
    one statement whose single [VALUES] clause is [n] copies of the same
    tuple, joined by a comma and a line break. *)
Theorem insert_rows_identical (self : TestDataGenerator.State)
    (df : TestDataGenerator.DataFrame) (table_name : string)
    (schema_name : option string) (n : Z) (output_csv : option string) :
  TestDataGenerator.data_frame self = Some df ->
  1 <= n ->
  let t := TestDataGenerator.full_table_name table_name schema_name in
  let names := map TestDataGenerator.df_name df in
  let values := map TestDataGenerator.df_generated_value df in
  (exists statements file,
      TestDataGenerator.generate_insert_from_dataframe
        self table_name schema_name n output_csv = inr (statements, file)
      /\ Z.of_nat (List.length statements) = n
      /\ statements
         = List.repeat (TestDataGenerator.insert_sql t names values) (Z.to_nat n)
      /\ (forall s1 s2, In s1 statements -> In s2 statements -> s1 = s2))
  /\ (exists tuples file,
        TestDataGenerator.generate_batch_insert_from_dataframe
          self table_name schema_name n output_csv
        = inr ("INSERT INTO " ++ t ++ " (" ++ Py.join ", " names ++ ") "
                 ++ DDLConstruct.newline ++ "VALUES " ++ DDLConstruct.newline ++ "  "
                 ++ Py.join TestDataGenerator.batch_separator tuples ++ ";",
               file)
        /\ Z.of_nat (List.length tuples) = n
        /\ tuples
           = List.repeat (TestDataGenerator.values_tuple values) (Z.to_nat n)
        /\ (forall t1 t2, In t1 tuples -> In t2 tuples -> t1 = t2)).
Proof.
  intros Hdf Hn t names values.
  unfold TestDataGenerator.generate_insert_from_dataframe,
    TestDataGenerator.generate_batch_insert_from_dataframe, Py.range_len.
  rewrite Hdf. rewrite !append_each_repeat. simpl app. split.
  - do 2 eexists. split; [reflexivity|]. split; [|split].
    + rewrite repeat_length. lia.
    + reflexivity.
    + intros s1 s2 H1 H2. apply in_repeat_eq in H1, H2. congruence.
  - do 2 eexists. split; [reflexivity|]. split; [|split].
    + rewrite repeat_length. lia.
    + reflexivity.
    + intros s1 s2 H1 H2. apply in_repeat_eq in H1, H2. congruence.
Qed.

Lemma insert_rows_identical_witness :
  (exists statements file,
      TestDataGenerator.generate_insert_from_dataframe
        Samples.loaded_generator "test_table" (Some "test_schema") 2 None
      = inr (statements, file)
      /\ Z.of_nat (List.length statements) = 2)
  /\ (exists tuples file,
        TestDataGenerator.generate_batch_insert_from_dataframe
          Samples.loaded_generator "test_table" (Some "test_schema") 2 None
        = inr ("INSERT INTO test_schema.test_table (id, name) "
                 ++ DDLConstruct.newline ++ "VALUES " ++ DDLConstruct.newline ++ "  "
                 ++ Py.join TestDataGenerator.batch_separator tuples ++ ";",
               file)
        /\ Z.of_nat (List.length tuples) = 2).
Proof.
  destruct (insert_rows_identical Samples.loaded_generator Samples.small_frame
              "test_table" (Some "test_schema") 2 None eq_refl ltac:(lia))
    as [[st [f [H1 [H2 _]]]] [tu [g [H3 [H4 _]]]]].
  split.
  - exists st, f. split; assumption.
  - exists tu, g. split; assumption.
Defined.

(** *** Dictionaries *)

Section DictFacts.
Context {V : Type}.
Implicit Types (d : Py.dict V) (k : string) (v : V).

Lemma get_set_same d k v : Py.get (Py.set d k v) k = Some v.
Proof.
  induction d as [|[k' v'] d IH]; simpl.
  - now rewrite String.eqb_refl.
  - destruct (String.eqb k' k) eqn:E; simpl; rewrite E; auto.
Qed.

Lemma get_set_other d k k' v :
  k <> k' -> Py.get (Py.set d k v) k' = Py.get d k'.
Proof.
  intros Hne. induction d as [|[k0 v0] d IH]; simpl.
  - destruct (String.eqb k k') eqn:E; [apply String.eqb_eq in E; contradiction|auto].
  - destruct (String.eqb k0 k) eqn:E; simpl.
    + apply String.eqb_eq in E; subst k0.
      destruct (String.eqb k k') eqn:E'; [apply String.eqb_eq in E'; contradiction|auto].
    + now rewrite IH.
Qed.

Lemma keys_set_incl d k v : incl (Py.keys (Py.set d k v)) (Py.keys d ++ [k])%list.
Proof.
  induction d as [|[k' v'] d IH]; simpl.
  - apply incl_refl.
  - destruct (String.eqb k' k); simpl.
    + intros x [Hx|Hx]; [left; exact Hx|right; apply in_or_app; now left].
    + intros x [Hx|Hx]; [left; exact Hx|right; now apply IH].
Qed.

Lemma in_keys_set d k v x :
  In x (Py.keys (Py.set d k v)) -> x = k \/ In x (Py.keys d).
Proof.
  intros H. apply keys_set_incl in H. apply in_app_or in H.
  destruct H as [H|[H|[]]]; auto.
Qed.

Lemma NoDup_keys_set d k v : NoDup (Py.keys d) -> NoDup (Py.keys (Py.set d k v)).
Proof.
  induction d as [|[k' v'] d IH]; simpl; intros Hnd.
  - constructor; [intros []|constructor].
  - inversion Hnd as [|? ? Hnotin Hnd']; subst.
    destruct (String.eqb k' k) eqn:E; simpl.
    + now constructor.
    + constructor; [|now apply IH].
      intros Hin. apply in_keys_set in Hin. destruct Hin as [->|Hin].
      * rewrite String.eqb_refl in E. discriminate.
      * contradiction.
Qed.

Lemma get_in_values d k v : Py.get d k = Some v -> In v (Py.values d).
Proof.
  induction d as [|[k' v'] d IH]; simpl; [discriminate|].
  destruct (String.eqb k' k); intros H.
  - inversion H; now left.
  - right; now apply IH.
Qed.

Lemma keys_length d : List.length (Py.keys d) = List.length d.
Proof. apply length_map. Qed.

Lemma values_length d : List.length (Py.values d) = List.length d.
Proof. apply length_map. Qed.

End DictFacts.

(** *** The construction pipeline *)

Section Pipeline.
Import Structure TableConstruct.

Lemma extract_loop_app (r1 r2 : list Row) (i : Z) (d : Py.dict MagiTableColumn) :
  extract_loop (r1 ++ r2) i d
  = extract_loop r2 (i + Z.of_nat (List.length r1)) (extract_loop r1 i d).
Proof.
  revert i d. induction r1 as [|r r1 IH]; intros i d.
  - simpl. now rewrite Z.add_0_r.
  - cbn [app extract_loop List.length]. rewrite IH. f_equal. lia.
Qed.

Lemma extract_loop_get_notin (rows : list Row) (i : Z)
    (d : Py.dict MagiTableColumn) (k : string) :
  ~ In k (map row_name rows) -> Py.get (extract_loop rows i d) k = Py.get d k.
Proof.
  revert i d. induction rows as [|r rows IH]; intros i d Hk; simpl; [reflexivity|].
  simpl in Hk. rewrite IH by tauto.
  unfold extract_step. apply get_set_other. simpl. tauto.
Qed.

(** The entry of a name is the column of the last row that bears it. *)
Lemma extract_loop_get_last (pre post : list Row) (r : Row) (i : Z)
    (d : Py.dict MagiTableColumn) :
  ~ In (row_name r) (map row_name post) ->
  Py.get (extract_loop (pre ++ r :: post) i d) (row_name r)
  = Some (iter_column r (i + Z.of_nat (List.length pre))).
Proof.
  intros Hpost. rewrite extract_loop_app. cbn [extract_loop].
  rewrite extract_loop_get_notin by assumption.
  unfold extract_step. apply get_set_same.
Qed.

Lemma extract_loop_keys_incl (rows : list Row) (i : Z)
    (d : Py.dict MagiTableColumn) :
  incl (Py.keys (extract_loop rows i d)) (Py.keys d ++ map row_name rows)%list.
Proof.
  revert i d. induction rows as [|r rows IH]; intros i d; simpl.
  - rewrite app_nil_r. apply incl_refl.
  - intros x Hx. apply IH in Hx. apply in_app_or in Hx.
    apply in_or_app. destruct Hx as [Hx|Hx].
    + unfold extract_step in Hx. apply in_keys_set in Hx.
      destruct Hx as [->|Hx]; [right; now left|now left].
    + right; now right.
Qed.

Lemma extract_loop_NoDup (rows : list Row) (i : Z) (d : Py.dict MagiTableColumn) :
  NoDup (Py.keys d) -> NoDup (Py.keys (extract_loop rows i d)).
Proof.
  revert i d. induction rows as [|r rows IH]; intros i d Hd; simpl; [assumption|].
  apply IH. now apply NoDup_keys_set.
Qed.

(** Every name has a last row. *)
Lemma last_row_named (rows : list Row) (n : string) :
  In n (map row_name rows) ->
  exists pre r post,
    rows = (pre ++ r :: post)%list /\ row_name r = n
    /\ ~ In n (map row_name post).
Proof.
  induction rows as [|a rows IH]; simpl; [intros []|].
  intros Hin.
  destruct (in_dec string_dec n (map row_name rows)) as [Hlater|Hlater].
  - destruct (IH Hlater) as (pre & r & post & -> & Hr & Hpost).
    exists (a :: pre), r, post. auto.
  - destruct Hin as [Ha|Hin]; [|contradiction].
    exists [], a, rows. auto.
Qed.

(** With a repeated name the mapping is shorter than the rows. *)
Lemma extract_shorter (l1 l2 l3 : list Row) (r1 r2 : Row) :
  row_name r1 = row_name r2 ->
  (List.length (extract_loop (l1 ++ r1 :: l2 ++ r2 :: l3) 0 [])
   < List.length (l1 ++ r1 :: l2 ++ r2 :: l3))%nat.
Proof.
  intros Hsame.
  set (rows := (l1 ++ r1 :: l2 ++ r2 :: l3)%list).
  pose proof (extract_loop_NoDup rows 0 [] (NoDup_nil _)) as Hnd.
  pose proof (extract_loop_keys_incl rows 0 []) as Hincl. simpl in Hincl.
  assert (Hsub : incl (Py.keys (extract_loop rows 0 []))
                   (map row_name (l1 ++ r1 :: l2 ++ l3))).
  { intros x Hx. apply Hincl in Hx. subst rows.
    rewrite map_app, in_app_iff in Hx |- *. simpl in Hx |- *.
    rewrite map_app, in_app_iff in Hx |- *. simpl in Hx.
    rewrite <- Hsame in Hx. tauto. }
  apply NoDup_incl_length in Hsub; [|assumption].
  rewrite keys_length, length_map in Hsub.
  subst rows. rewrite !length_app in *. simpl in *. rewrite !length_app in *.
  simpl in *. lia.
Qed.

(** What the factory returns once [read_define] has completed. *)
Lemma factory_never_fails_aux (src : Source) (self : State) :
  (forall self', read_define src self = inr self' ->
     exists t, magi_table_factory src self = inr (t, self')
               /\ columns t = extract_columns_to_magi_columns self').
Proof.
  intros self' H. unfold magi_table_factory. rewrite H. simpl.
  eexists. split; reflexivity.
Qed.

End Pipeline.

(** C1, as the code has it.  The factory makes no check of [table_name]:
    whenever [read_define] completes, the factory returns a table that carries
    the [table_name] the source holds at that moment, be it [None] or the empty
    string, and the only errors of the factory are those of [read_define]. *)
Theorem factory_passes_table_name_on (src : TableConstruct.Source)
    (self : TableConstruct.State) :
  (forall self', TableConstruct.read_define src self = inr self' ->
     TableConstruct.magi_table_factory src self
     = inr ({| Structure.table_name := TableConstruct.self_table_name self';
               Structure.table_comment := TableConstruct.self_table_comment self';
               Structure.table_schema := TableConstruct.self_table_schema self';
               Structure.columns :=
                 TableConstruct.extract_columns_to_magi_columns self';
               Structure.indexes := TableConstruct.self_indexes self' |},
            self'))
  /\ (forall e, TableConstruct.magi_table_factory src self = inl e ->
        TableConstruct.read_define src self = inl e).
Proof.
  unfold TableConstruct.magi_table_factory. split.
  - intros self' H. rewrite H. reflexivity.
  - intros e. unfold Py.bind, Py.ret.
    destruct (TableConstruct.read_define src self); intros H; [congruence|discriminate H].
Qed.

Lemma factory_passes_table_name_on_witness :
  exists t self',
    TableConstruct.magi_table_factory Samples.demo_source TableConstruct.init
    = inr (t, self')
    /\ Structure.table_name t = Some "MagiOrigin".
Proof.
  eexists. eexists. split.
  - exact (proj1 (factory_passes_table_name_on Samples.demo_source TableConstruct.init)
             _ eq_refl).
  - reflexivity.
Defined.

(** C1 fails: a source whose schema reader sets no name gets its table all
    the same, with [table_name] unset. *)
Lemma factory_accepts_unset_table_name :
  exists t self',
    TableConstruct.read_define Samples.unnamed_source TableConstruct.init = inr self'
    /\ TableConstruct.self_table_name self' = None
    /\ TableConstruct.magi_table_factory Samples.unnamed_source TableConstruct.init
       = inr (t, self')
    /\ Structure.table_name t = None.
Proof.
  eexists. eexists. split; [reflexivity|]. split; [reflexivity|].
  split; reflexivity.
Qed.

(** C10.  When two rows of the column listing bear the same name, the factory
    still returns a table.  In its mapping every name holds the column of the
    last row that bears it, so the column of the earlier row is gone; the
    mapping has fewer columns than there are rows; its names are pairwise
    distinct; and the ordinals of its columns are not 1, 2, ... up to the
    number of columns. *)
Theorem duplicate_names_overwrite (src : TableConstruct.Source)
    (self self' : TableConstruct.State)
    (l1 l2 l3 : list TableConstruct.Row) (r1 r2 : TableConstruct.Row) :
  TableConstruct.read_define src self = inr self' ->
  TableConstruct.columns_view self' = (l1 ++ r1 :: l2 ++ r2 :: l3)%list ->
  TableConstruct.row_name r1 = TableConstruct.row_name r2 ->
  exists t,
    TableConstruct.magi_table_factory src self = inr (t, self')
    /\ (forall pre r post,
          TableConstruct.columns_view self' = (pre ++ r :: post)%list ->
          ~ In (TableConstruct.row_name r) (map TableConstruct.row_name post) ->
          Py.get (Structure.columns t) (TableConstruct.row_name r)
          = Some (TableConstruct.iter_column r (Z.of_nat (List.length pre))))
    /\ Py.get (Structure.columns t) (TableConstruct.row_name r1)
       <> Some (TableConstruct.iter_column r1 (Z.of_nat (List.length l1)))
    /\ (List.length (Structure.columns t)
        < List.length (TableConstruct.columns_view self'))%nat
    /\ NoDup (Py.keys (Structure.columns t))
    /\ ~ ordinals_contiguous (Structure.columns t).
Proof.
  intros Hread Hrows Hsame.
  destruct (factory_never_fails_aux src self self' Hread) as [t [Ht Hcols]].
  exists t. split; [exact Ht|].
  rewrite Hcols. unfold TableConstruct.extract_columns_to_magi_columns.
  assert (Hlast : forall pre r post,
            TableConstruct.columns_view self' = (pre ++ r :: post)%list ->
            ~ In (TableConstruct.row_name r) (map TableConstruct.row_name post) ->
            Py.get (TableConstruct.extract_loop (TableConstruct.columns_view self') 0 [])
              (TableConstruct.row_name r)
            = Some (TableConstruct.iter_column r (Z.of_nat (List.length pre)))).
  { intros pre r post E Hpost. rewrite E.
    now rewrite extract_loop_get_last by assumption. }
  assert (Hlen : (List.length
                    (TableConstruct.extract_loop (TableConstruct.columns_view self') 0 [])
                  < List.length (TableConstruct.columns_view self'))%nat).
  { rewrite Hrows. now apply extract_shorter. }
  split; [exact Hlast|]. split; [|split; [exact Hlen|split]].
  - (* the entry of the repeated name comes from a later row *)
    destruct (last_row_named (r2 :: l3) (TableConstruct.row_name r1))
      as (pre & r & post & Esplit & Hr & Hpost).
    { simpl. left. now rewrite Hsame. }
    assert (E : TableConstruct.columns_view self'
                = ((l1 ++ r1 :: l2 ++ pre) ++ r :: post)%list).
    { rewrite Hrows, Esplit. rewrite <- app_assoc. simpl. rewrite <- app_assoc.
      reflexivity. }
    rewrite <- Hr in Hpost |- *. rewrite (Hlast _ _ _ E Hpost).
    intros Heq.
    apply (f_equal (fun o => match o with
                             | Some c => Structure.no c
                             | None => None
                             end)) in Heq.
    simpl in Heq. injection Heq as Heq.
    rewrite length_app in Heq. simpl in Heq. lia.
  - apply extract_loop_NoDup. constructor.
  - (* the last row keeps an ordinal beyond the number of columns *)
    unfold ordinals_contiguous. intros Hcont.
    destruct (exists_last (l := TableConstruct.columns_view self')) as (pre & z & E).
    { rewrite Hrows. now destruct l1. }
    assert (Hz : ~ In (TableConstruct.row_name z) (map TableConstruct.row_name [])) by (intros []).
    pose proof (Hlast pre z [] E Hz) as Hget.
    apply get_in_values in Hget.
    apply (in_map Structure.no) in Hget. rewrite Hcont in Hget.
    apply in_map_iff in Hget. destruct Hget as (i & Hi & Hin).
    apply in_seq in Hin. simpl in Hi. injection Hi as Hi.
    assert (HN : List.length (TableConstruct.columns_view self')
                 = S (List.length pre)).
    { rewrite E, length_app. simpl. lia. }
    lia.
Qed.

Lemma duplicate_names_overwrite_witness :
  exists t,
    TableConstruct.magi_table_factory Samples.duplicate_source TableConstruct.init
    = inr (t, Samples.duplicate_state)
    /\ (List.length (Structure.columns t) < 3)%nat
    /\ NoDup (Py.keys (Structure.columns t))
    /\ ~ ordinals_contiguous (Structure.columns t).
Proof.
  destruct (duplicate_names_overwrite Samples.duplicate_source TableConstruct.init
              Samples.duplicate_state [] [Samples.name_row] []
              Samples.id_row Samples.id_again_row eq_refl eq_refl eq_refl)
    as (t & Ht & _ & _ & Hlen & Hnd & Hord).
  exists t. repeat split; assumption.
Defined.

(** The table of the repeated [id]: two columns for three rows, [id] from
    the third row with ordinal 3, [name] with ordinal 2. *)
Example duplicate_source_table :
  exists t,
    TableConstruct.magi_table_factory Samples.duplicate_source TableConstruct.init
    = inr (t, Samples.duplicate_state)
    /\ Py.keys (Structure.columns t) = ["id"; "name"]
    /\ map Structure.no (Py.values (Structure.columns t)) = [Some 3; Some 2]
    /\ map Structure.data_type (Py.values (Structure.columns t)) = ["VARCHAR"; "VARCHAR"].
Proof. eexists. split; [reflexivity|]. repeat split. Qed.

(** *** Column clauses *)

Section ColumnClause.
Import Structure DDLConstruct.

Lemma append_empty_r (s : string) : s ++ EmptyString = s.
Proof. induction s as [|c s IH]; simpl; [reflexivity|now rewrite IH]. Qed.

Lemma lower_upper_char (c : ascii) :
  Py.lower_char (Py.upper_char c) = Py.lower_char c.
Proof. destruct c as [[] [] [] [] [] [] [] []]; reflexivity. Qed.

Lemma lower_upper (s : string) : Py.lower (Py.upper s) = Py.lower s.
Proof.
  induction s as [|c s IH]; simpl; [reflexivity|].
  unfold Py.lower, Py.upper in *. simpl. now rewrite lower_upper_char, IH.
Qed.

Lemma number_date_bool_not_sized (column : MagiTableColumn) :
  number_date_bool column -> ~ sized_type column.
Proof.
  unfold number_date_bool, sized_type, Py.mem. simpl.
  rewrite !orb_true_iff, !String.eqb_eq. rewrite <- (lower_upper (data_type column)).
  intros H.
  repeat (destruct H as [H|H]; [rewrite H; intros [E|E]; discriminate E|]).
  discriminate H.
Qed.

Lemma mem_sized (column : MagiTableColumn) :
  Py.mem (Py.lower (data_type column)) ["varchar"; "char"] = true <-> sized_type column.
Proof.
  unfold sized_type, Py.mem. simpl.
  rewrite !orb_true_iff, !String.eqb_eq. intuition discriminate.
Qed.

Lemma clause_parts (column : MagiTableColumn) (typ : string) :
  (let parts := [name column; typ] in
   let parts := if primary_key column then (parts ++ ["PRIMARY KEY"])%list else parts in
   let parts := if not_null column then (parts ++ ["NOT NULL"])%list else parts in
   match default column with
   | Some d => (parts ++ [("DEFAULT " ++ d)%string])%list
   | None => parts
   end)
  = ([name column; typ] ++ optional (primary_key column) "PRIMARY KEY"
       ++ optional (not_null column) "NOT NULL"
       ++ optional_default (default column))%list.
Proof.
  destruct (primary_key column), (not_null column), (default column); reflexivity.
Qed.

End ColumnClause.

(** C6, as the code has it.  Every column clause is the name, the type with
    its length suffix, then [PRIMARY KEY], [NOT NULL] and [DEFAULT literal],
    each present or not, in that order and joined by single spaces.  The
    suffix [(length)] is there exactly when the length is set and not zero and
    the type is, ignoring case, [varchar] or [char]; it is never there for a
    numeric, date or boolean type. *)
Theorem column_clause_form (column : Structure.MagiTableColumn) (database : string) :
  exists suffix,
    DDLConstruct._build_column_definition column database
    = Py.join " "
        ([Structure.name column; (Structure.data_type column ++ suffix)%string]
           ++ optional (Structure.primary_key column) "PRIMARY KEY"
           ++ optional (Structure.not_null column) "NOT NULL"
           ++ optional_default (Structure.default column))%list
    /\ ((exists l, declared_length column l /\ sized_type column
                   /\ suffix = "(" ++ Py.str_of_int l ++ ")")
        \/ (~ (exists l, declared_length column l /\ sized_type column)
            /\ suffix = EmptyString))
    /\ (number_date_bool column -> suffix = EmptyString).
Proof.
  unfold DDLConstruct._build_column_definition.
  pose proof (mem_sized column) as Hs.
  pose proof (number_date_bool_not_sized column) as Hn.
  unfold declared_length.
  destruct (Structure.length column) as [l|] eqn:Hl.
  - destruct (l =? 0) eqn:Hz; simpl negb; cbn [andb].
    + apply Z.eqb_eq in Hz. exists EmptyString. rewrite clause_parts.
      split; [now rewrite append_empty_r|]. split; [|reflexivity].
      right. split; [|reflexivity]. intros (l' & [E Hne] & _). congruence.
    + apply Z.eqb_neq in Hz.
      destruct (Py.mem (Py.lower (Structure.data_type column)) ["varchar"; "char"]) eqn:Hm.
      * exists ("(" ++ Py.str_of_int l ++ ")"). rewrite clause_parts.
        split; [reflexivity|]. split.
        -- left. exists l. repeat split; auto. now apply Hs.
        -- intros Hnum. exfalso. apply (Hn Hnum). now apply Hs.
      * exists EmptyString. rewrite clause_parts.
        split; [now rewrite append_empty_r|]. split; [|reflexivity].
        right. split; [|reflexivity]. intros (l' & _ & Hsz).
        apply Hs in Hsz. congruence.
  - exists EmptyString. rewrite clause_parts.
    split; [now rewrite append_empty_r|]. split; [|reflexivity].
    right. split; [|reflexivity]. intros (l' & [E _] & _). discriminate E.
Qed.

Lemma column_clause_form_witness :
  number_date_bool Samples.id_column
  /\ exists suffix,
       DDLConstruct._build_column_definition Samples.id_column "oracle"
       = Py.join " " ["id"; "INTEGER" ++ suffix; "PRIMARY KEY"; "NOT NULL"]
       /\ suffix = EmptyString.
Proof.
  assert (Hn : number_date_bool Samples.id_column) by reflexivity.
  split; [exact Hn|].
  destruct (column_clause_form Samples.id_column "oracle") as (suffix & H1 & _ & H3).
  exists suffix. split; [exact H1|exact (H3 Hn)].
Defined.

(** C6 fails for the other character types: [VARCHAR2] is a character type
    for the value generator and the column declares length 100, yet its
    clause carries no length. *)
Lemma varchar2_clause_has_no_length :
  character_family Samples.code_column
  /\ Structure.length Samples.code_column = Some 100
  /\ DDLConstruct._build_column_definition Samples.code_column "oracle"
     = "code VARCHAR2 NOT NULL".
Proof. repeat split. Qed.

(** *** Strings *)

Section StringFacts.

Lemma has_char_append (c : ascii) (a b : string) :
  has_char c (a ++ b) = has_char c a || has_char c b.
Proof.
  induction a as [|x a IH]; simpl; [reflexivity|].
  now rewrite IH, orb_assoc.
Qed.

Lemma has_char_remove_same (c : ascii) (s : string) :
  has_char c (Py.remove_char c s) = false.
Proof.
  induction s as [|x s IH]; simpl; [reflexivity|].
  destruct (Ascii.eqb x c) eqn:E; simpl; [assumption|].
  now rewrite E, IH.
Qed.

Lemma has_char_remove_other (c c' : ascii) (s : string) :
  has_char c s = false -> has_char c (Py.remove_char c' s) = false.
Proof.
  induction s as [|x s IH]; simpl; [reflexivity|].
  intros H. apply orb_false_iff in H. destruct H as [Hx Hs].
  destruct (Ascii.eqb x c'); simpl; [auto|].
  rewrite Hx. simpl. auto.
Qed.

Lemma has_char_take (c : ascii) (n : nat) (s : string) :
  has_char c s = false -> has_char c (Py.take_nat n s) = false.
Proof.
  revert s. induction n as [|n IH]; intros [|x s]; simpl; auto.
  intros H. apply orb_false_iff in H. destruct H as [Hx Hs].
  rewrite Hx. simpl. auto.
Qed.

Lemma has_char_slice (c : ascii) (s : string) (k : Z) :
  has_char c s = false -> has_char c (Py.slice_to s k) = false.
Proof. unfold Py.slice_to. destruct (k <? 0); apply has_char_take. Qed.

Lemma has_char_repeat (c x : ascii) (n : Z) :
  Ascii.eqb x c = false -> has_char c (Py.repeat (String x EmptyString) n) = false.
Proof.
  intros H. unfold Py.repeat. induction (Z.to_nat n) as [|m IH]; simpl; [reflexivity|].
  now rewrite H, IH.
Qed.

Lemma has_quote_append (a b : string) :
  has_quote a = false -> has_quote b = false -> has_quote (a ++ b) = false.
Proof.
  unfold has_quote. rewrite !has_char_append, !orb_false_iff. tauto.
Qed.

Lemma has_quote_slice (s : string) (k : Z) :
  has_quote s = false -> has_quote (Py.slice_to s k) = false.
Proof.
  unfold has_quote. rewrite !orb_false_iff. intros [H1 H2].
  split; now apply has_char_slice.
Qed.

Lemma has_quote_filler (n : Z) : has_quote (Py.repeat "N" n) = false.
Proof.
  unfold has_quote. rewrite !has_char_repeat; reflexivity.
Qed.

Lemma has_quote_sanitized (column : Structure.MagiTableColumn) :
  has_quote (sanitized_comment column) = false.
Proof.
  unfold has_quote, sanitized_comment. rewrite has_char_remove_same, orb_false_r.
  apply has_char_remove_other, has_char_remove_same.
Qed.

Lemma len_append (a b : string) : Py.len (a ++ b) = Py.len a + Py.len b.
Proof.
  unfold Py.len. induction a as [|x a IH]; simpl String.length; [lia|].
  rewrite !Nat2Z.inj_succ. lia.
Qed.

Lemma len_take (n : nat) (s : string) :
  (n <= String.length s)%nat -> Py.len (Py.take_nat n s) = Z.of_nat n.
Proof.
  intros H. unfold Py.len. f_equal. revert s H.
  induction n as [|n IH]; intros [|x s] H; simpl in *; try reflexivity; try lia.
  f_equal. apply IH. lia.
Qed.

Lemma len_slice (s : string) (k : Z) :
  0 <= k <= Py.len s -> Py.len (Py.slice_to s k) = k.
Proof.
  intros H. unfold Py.slice_to. destruct (k <? 0) eqn:E; [lia|].
  rewrite len_take; unfold Py.len in *; lia.
Qed.

Lemma len_repeat (x : ascii) (n : Z) :
  0 <= n -> Py.len (Py.repeat (String x EmptyString) n) = n.
Proof.
  intros H. unfold Py.repeat, Py.len. rewrite <- (Z2Nat.id n) at 2 by assumption.
  induction (Z.to_nat n) as [|m IH]; simpl String.length; [reflexivity|].
  rewrite !Nat2Z.inj_succ. lia.
Qed.

Lemma truthy_str_len (s : string) : Py.truthy_str s = false -> s = EmptyString.
Proof. destruct s; [reflexivity|discriminate]. Qed.

End StringFacts.

(** *** The value generator *)

Section ValueGenerator.
Import Structure TestDataGenerator.

Lemma actual_length_positive (self : State) (max_length a : Z) :
  calculate_actual_length self max_length = inr a -> 1 <= a.
Proof.
  unfold calculate_actual_length.
  destruct (max_length <=? 0); [intros H; inversion H; lia|].
  destruct (Py.int_mul max_length (LengthRatio_value (length_ratio self)))
    as [e|p]; simpl; [discriminate|].
  destruct (Py.int_of p) as [e|n]; simpl; [discriminate|].
  intros H. inversion H. lia.
Qed.

(** The text between the quotes of a generated text value. *)
Lemma generate_text_value_body (self : State) (column : MagiTableColumn) (a : Z) :
  calculate_actual_length self (Py.or_int (length column) 1) = inr a ->
  generate_text_value self column
  = inr ("'" ++
         (match text_fill_mode self with
          | COMMENT_PLUS_N =>
              if Py.len (sanitized_comment column) >=? a
              then Py.slice_to (sanitized_comment column) a
              else sanitized_comment column
                   ++ Py.repeat "N" (a - Py.len (sanitized_comment column))
          | ONLY_N => Py.repeat "N" a
          end) ++ "'").
Proof.
  intros Ha. pose proof (actual_length_positive _ _ _ Ha) as Hpos.
  unfold generate_text_value. rewrite Ha. simpl Py.bind.
  fold (sanitized_comment column).
  destruct (text_fill_mode self); simpl TextFillMode_eqb; cbv iota; [reflexivity|].
  destruct (Py.truthy_str (sanitized_comment column)) eqn:Ht; [reflexivity|].
  apply truthy_str_len in Ht. rewrite Ht. change (Py.len EmptyString) with 0.
  rewrite Z.geb_leb. destruct (a <=? 0) eqn:E; [apply Z.leb_le in E; lia|].
  simpl. now rewrite Z.sub_0_r.
Qed.

Lemma generate_default_value_text (self : State) (column : MagiTableColumn) :
  character_family column ->
  generate_default_value self column = generate_text_value self column.
Proof.
  unfold character_family, generate_default_value. intros H. now rewrite H.
Qed.

Lemma generated_value_of_default (self : State) (column : MagiTableColumn) (d : string) :
  default_overrides column d -> generated_value_of self column = inr d.
Proof.
  intros (Hd & Hne & Hnull). unfold generated_value_of. rewrite Hd.
  destruct d as [|c d]; [congruence|]. simpl Py.truthy_str.
  destruct (String.eqb (String c d) "NULL") eqn:E; [|reflexivity].
  apply String.eqb_eq in E. congruence.
Qed.

Lemma generated_value_of_no_default (self : State) (column : MagiTableColumn) :
  (forall d, ~ default_overrides column d) ->
  generated_value_of self column = generate_default_value self column.
Proof.
  intros H. unfold generated_value_of. destruct (default column) as [d|] eqn:Hd;
    [|reflexivity].
  destruct d as [|c d]; [reflexivity|]. simpl Py.truthy_str.
  destruct (String.eqb (String c d) "NULL") eqn:E; [reflexivity|].
  exfalso. apply (H (String c d)). repeat split; [assumption|discriminate|].
  intros E'. rewrite E', String.eqb_refl in E. discriminate.
Qed.

(** Only the two settings of the generator matter to what it generates. *)
Lemma generated_value_of_config (g1 g2 : State) (column : MagiTableColumn) :
  length_ratio g1 = length_ratio g2 ->
  text_fill_mode g1 = text_fill_mode g2 ->
  generated_value_of g1 column = generated_value_of g2 column.
Proof.
  intros Hr Hm.
  unfold generated_value_of, generate_default_value, generate_text_value,
    generate_number_value, calculate_actual_length.
  now rewrite Hr, Hm.
Qed.

Lemma fill_rows_config (g1 g2 : State) (cols : list MagiTableColumn) :
  length_ratio g1 = length_ratio g2 ->
  text_fill_mode g1 = text_fill_mode g2 ->
  fill_rows g1 cols = fill_rows g2 cols.
Proof.
  intros Hr Hm. induction cols as [|c cols IH]; simpl; [reflexivity|].
  now rewrite (generated_value_of_config g1 g2 c Hr Hm), IH.
Qed.

Lemma generate_dataframe_frame (g : State) (t : MagiTable) :
  frame_of (generate_dataframe g t) = fill_rows g (sorted (Py.values (columns t))).
Proof.
  unfold generate_dataframe.
  destruct (fill_rows g (sorted (Py.values (columns t)))); reflexivity.
Qed.

Lemma generate_dataframe_inv (g g' : State) (t : MagiTable) (df : DataFrame) :
  generate_dataframe g t = inr (df, g') ->
  fill_rows g (sorted (Py.values (columns t))) = inr df
  /\ g' = set_data_frame g df.
Proof.
  unfold generate_dataframe.
  destruct (fill_rows g (sorted (Py.values (columns t)))) as [e|df']; simpl;
    [discriminate|].
  intros H. inversion H. auto.
Qed.

End ValueGenerator.

(** C4, as the code has it.  Whatever the comment of a character column is,
    the generated text value is a body between two single quotes, and the
    body holds neither a single nor a double quote; that value enters the
    frame when no default takes its place.  A default that is set, not empty
    and not [NULL] enters the frame as it is, quotes included. *)
Theorem text_value_quotes (self : TestDataGenerator.State)
    (column : Structure.MagiTableColumn) (a : Z) :
  character_family column ->
  TestDataGenerator.calculate_actual_length self
    (Py.or_int (Structure.length column) 1) = inr a ->
  (exists body,
      TestDataGenerator.generate_default_value self column
      = inr ("'" ++ body ++ "'")
      /\ has_quote body = false
      /\ ((forall d, ~ default_overrides column d) ->
          TestDataGenerator.generated_value_of self column
          = inr ("'" ++ body ++ "'")))
  /\ (forall d, default_overrides column d ->
        TestDataGenerator.generated_value_of self column = inr d).
Proof.
  intros Hfam Ha. split.
  - rewrite (generate_default_value_text self column Hfam).
    rewrite (generate_text_value_body self column a Ha).
    eexists. split; [reflexivity|]. split.
    + destruct (TestDataGenerator.text_fill_mode self).
      * apply has_quote_filler.
      * destruct (Py.len (sanitized_comment column) >=? a).
        -- apply has_quote_slice, has_quote_sanitized.
        -- apply has_quote_append; [apply has_quote_sanitized|apply has_quote_filler].
    + intros Hno. rewrite (generated_value_of_no_default self column Hno).
      rewrite (generate_default_value_text self column Hfam).
      apply (generate_text_value_body self column a Ha).
  - intros d Hd. now apply generated_value_of_default.
Qed.

Lemma text_value_quotes_witness :
  exists body,
    TestDataGenerator.generate_default_value
      (TestDataGenerator.init TestDataGenerator.HALF TestDataGenerator.COMMENT_PLUS_N)
      Samples.name_column
    = inr ("'" ++ body ++ "'")
    /\ has_quote body = false.
Proof.
  destruct (text_value_quotes
              (TestDataGenerator.init TestDataGenerator.HALF
                 TestDataGenerator.COMMENT_PLUS_N)
              Samples.name_column 25 eq_refl eq_refl)
    as [(body & H1 & H2 & _) _].
  exists body. split; assumption.
Defined.

(** C4 fails: the default of a character column enters the frame as it is,
    and the default ['O''Brien'] holds single quotes, also between its first
    and its last character. *)
Lemma default_value_keeps_its_quotes :
  character_family Samples.owner_column
  /\ TestDataGenerator.generated_value_of
       (TestDataGenerator.init TestDataGenerator.FULL TestDataGenerator.COMMENT_PLUS_N)
       Samples.owner_column
     = inr "'O''Brien'"
  /\ has_quote "'O''Brien'" = true
  /\ has_quote "O''Brien" = true.
Proof. repeat split. Qed.

(** C5, as the code has it.  For a character column in comment-plus-filler
    mode the generated value is a body between two single quotes.  With the
    comment stripped of single and double quotes, the body is that comment cut
    to [actual_length] characters when it has at least that many, and
    otherwise that comment followed by [actual_length - len] times the filler
    [N]; either way the body has [actual_length] characters. *)
Theorem comment_plus_filler_value (self : TestDataGenerator.State)
    (column : Structure.MagiTableColumn) (a : Z) :
  character_family column ->
  TestDataGenerator.text_fill_mode self = TestDataGenerator.COMMENT_PLUS_N ->
  TestDataGenerator.calculate_actual_length self
    (Py.or_int (Structure.length column) 1) = inr a ->
  exists body,
    TestDataGenerator.generate_default_value self column
    = inr ("'" ++ body ++ "'")
    /\ (a <= Py.len (sanitized_comment column) ->
        body = Py.slice_to (sanitized_comment column) a)
    /\ (Py.len (sanitized_comment column) < a ->
        body = sanitized_comment column
               ++ Py.repeat "N" (a - Py.len (sanitized_comment column)))
    /\ Py.len body = a.
Proof.
  intros Hfam Hmode Ha.
  pose proof (actual_length_positive _ _ _ Ha) as Hpos.
  rewrite (generate_default_value_text self column Hfam).
  rewrite (generate_text_value_body self column a Ha), Hmode.
  eexists. split; [reflexivity|].
  rewrite Z.geb_leb.
  destruct (a <=? Py.len (sanitized_comment column)) eqn:E.
  - apply Z.leb_le in E. split; [reflexivity|]. split; [lia|].
    apply len_slice. lia.
  - apply Z.leb_gt in E. split; [lia|]. split; [reflexivity|].
    rewrite len_append, len_repeat by lia. lia.
Qed.

Lemma comment_plus_filler_value_witness :
  exists body,
    TestDataGenerator.generate_default_value
      (TestDataGenerator.init TestDataGenerator.HALF TestDataGenerator.COMMENT_PLUS_N)
      Samples.email_column
    = inr ("'" ++ body ++ "'")
    /\ body = "Email address" ++ Py.repeat "N" 37
    /\ Py.len body = 50.
Proof.
  destruct (comment_plus_filler_value
              (TestDataGenerator.init TestDataGenerator.HALF
                 TestDataGenerator.COMMENT_PLUS_N)
              Samples.email_column 50 eq_refl eq_refl eq_refl)
    as (body & H1 & _ & H3 & H4).
  exists body. split; [exact H1|]. split; [|exact H4].
  apply H3. reflexivity.
Defined.

(** C5 fails as worded: for VARCHAR(100) with the comment [Email address] at
    one half, the value is not the comment and 37 fillers, it is that text
    between two single quotes. *)
Lemma email_value_is_quoted :
  let self :=
    TestDataGenerator.init TestDataGenerator.HALF TestDataGenerator.COMMENT_PLUS_N in
  TestDataGenerator.generate_default_value self Samples.email_column
  <> inr ("Email address" ++ Py.repeat "N" 37)
  /\ TestDataGenerator.generate_default_value self Samples.email_column
     = inr ("'" ++ "Email address" ++ Py.repeat "N" 37 ++ "'").
Proof. split; [discriminate|reflexivity]. Qed.

(** C9.  Generation is a function of the table and the configuration alone.
    Two generators with the same length ratio and fill mode, whatever frame
    each held before, return the same frame for the same table; a second run
    on a generator returns what the first run returned and leaves the
    generator as it was; the INSERT text built from the two generators is the
    same; and the DDL text of a table and a dialect is one text. *)
Theorem generation_is_deterministic (g1 g2 : TestDataGenerator.State)
    (t : Structure.MagiTable) (database table_name : string)
    (schema_name : option string) (rows_count : Z) (output_csv : option string) :
  TestDataGenerator.length_ratio g1 = TestDataGenerator.length_ratio g2 ->
  TestDataGenerator.text_fill_mode g1 = TestDataGenerator.text_fill_mode g2 ->
  frame_of (TestDataGenerator.generate_dataframe g1 t)
  = frame_of (TestDataGenerator.generate_dataframe g2 t)
  /\ (forall df g1',
        TestDataGenerator.generate_dataframe g1 t = inr (df, g1') ->
        TestDataGenerator.generate_dataframe g1' t = inr (df, g1')
        /\ exists g2',
             TestDataGenerator.generate_dataframe g2 t = inr (df, g2')
             /\ TestDataGenerator.generate_insert_from_dataframe
                  g1' table_name schema_name rows_count output_csv
                = TestDataGenerator.generate_insert_from_dataframe
                    g2' table_name schema_name rows_count output_csv
             /\ TestDataGenerator.generate_batch_insert_from_dataframe
                  g1' table_name schema_name rows_count output_csv
                = TestDataGenerator.generate_batch_insert_from_dataframe
                    g2' table_name schema_name rows_count output_csv)
  /\ (forall ddl1 ddl2,
        DDLConstruct.create_table t database = ddl1 ->
        DDLConstruct.create_table t database = ddl2 ->
        ddl1 = ddl2).
Proof.
  intros Hr Hm. split; [|split].
  - rewrite !generate_dataframe_frame. now apply fill_rows_config.
  - intros df g1' H1. apply generate_dataframe_inv in H1. destruct H1 as [Hfill ->].
    split.
    + unfold TestDataGenerator.generate_dataframe.
      rewrite (fill_rows_config (TestDataGenerator.set_data_frame g1 df) g1)
        by reflexivity.
      rewrite Hfill. reflexivity.
    + exists (TestDataGenerator.set_data_frame g2 df). split; [|split].
      * unfold TestDataGenerator.generate_dataframe.
        rewrite <- (fill_rows_config g1 g2) by assumption.
        rewrite Hfill. reflexivity.
      * reflexivity.
      * reflexivity.
  - intros ddl1 ddl2 H1 H2. congruence.
Qed.

Lemma generation_is_deterministic_witness :
  frame_of (TestDataGenerator.generate_dataframe
              (TestDataGenerator.init TestDataGenerator.ONE_THIRD TestDataGenerator.ONLY_N)
              Samples.test_table)
  = frame_of (TestDataGenerator.generate_dataframe
                Samples.loaded_generator Samples.test_table).
Proof.
  exact (proj1 (generation_is_deterministic
                  (TestDataGenerator.init TestDataGenerator.ONE_THIRD
                     TestDataGenerator.ONLY_N)
                  Samples.loaded_generator Samples.test_table
                  "oracle" "test_table" None 1 None eq_refl eq_refl)).
Defined.

(** *** Floats

    [float_of_int] and [fmul] end in [binary_round_aux]: a right shift that
    keeps a round bit and a sticky bit, then rounding to nearest, ties to
    even.  The lemmas below read the shift as a division ([shr_iter]), the
    rounding as [rne_shift] ([shr_round]), bound [rne_shift] on both sides
    ([rne_lower], [rne_upper]) and from there get the int of [L * (1/3)] and
    of [L * (1/2)] for every int [L] below [2^53]. *)

Section FloatFacts.

Lemma pow2_pred (d : Z) : 0 < d -> 2 ^ d = 2 * 2 ^ (d - 1).
Proof.
  intros H. replace d with (Z.succ (d - 1)) at 1 by lia.
  apply Z.pow_succ_r. lia.
Qed.

Lemma digits2_bounds (p : positive) :
  2 ^ (Z.pos (digits2_pos p) - 1) <= Z.pos p < 2 ^ Z.pos (digits2_pos p).
Proof.
  induction p as [p IH|p IH|]; cbn [digits2_pos].
  - rewrite Pos2Z.inj_succ. replace (Z.succ (Z.pos (digits2_pos p)) - 1)
      with (Z.pos (digits2_pos p)) by lia.
    rewrite Z.pow_succ_r by lia.
    rewrite (pow2_pred (Z.pos (digits2_pos p))) in * by lia.
    rewrite (Pos2Z.inj_xI p). lia.
  - rewrite Pos2Z.inj_succ. replace (Z.succ (Z.pos (digits2_pos p)) - 1)
      with (Z.pos (digits2_pos p)) by lia.
    rewrite Z.pow_succ_r by lia.
    rewrite (pow2_pred (Z.pos (digits2_pos p))) in * by lia.
    rewrite (Pos2Z.inj_xO p). lia.
  - simpl. lia.
Qed.

Lemma digits2_unique (p : positive) (n : Z) :
  2 ^ (n - 1) <= Z.pos p < 2 ^ n -> Z.pos (digits2_pos p) = n.
Proof.
  intros [Hlo Hhi]. pose proof (digits2_bounds p) as [Blo Bhi].
  set (D := Z.pos (digits2_pos p)) in *.
  assert (0 < n).
  { destruct (Z_lt_le_dec 0 n); [assumption|].
    assert (2 ^ n <= 2 ^ 0) by (destruct (Z.eq_dec n 0) as [->|]; [lia|rewrite Z.pow_neg_r; simpl; lia]).
    simpl in *. lia. }
  destruct (Z_lt_le_dec D n) as [Hlt|Hge].
  - assert (2 ^ D <= 2 ^ (n - 1)) by (apply Z.pow_le_mono_r; lia). lia.
  - destruct (Z.eq_dec D n) as [|Hne]; [assumption|].
    assert (2 ^ n <= 2 ^ (D - 1)) by (apply Z.pow_le_mono_r; lia). lia.
Qed.

Lemma iter_pos_nat {A : Type} (f : A -> A) (n : positive) (x : A) :
  iter_pos f n x = Nat.iter (Pos.to_nat n) f x.
Proof.
  revert x. induction n as [n IH|n IH|]; intros x; cbn [iter_pos].
  - rewrite !IH, Pos2Nat.inj_xI. change (f x) with (Nat.iter 1 f x).
    rewrite <- !Nat.iter_add. f_equal. lia.
  - rewrite !IH, Pos2Nat.inj_xO. rewrite <- Nat.iter_add. f_equal. lia.
  - reflexivity.
Qed.

Lemma shr_1_nonneg (q : Z) (r s : bool) :
  0 <= q ->
  shr_1 (Build_shr_record q r s) = Build_shr_record (q / 2) (Z.odd q) (r || s).
Proof.
  intros Hq. destruct q as [|p|p]; [reflexivity| |lia].
  destruct p as [p|p|]; cbn [shr_1].
  - f_equal. rewrite (Pos2Z.inj_xI p). apply Z.div_unique with 1; lia.
  - f_equal. rewrite (Pos2Z.inj_xO p). apply Z.div_unique with 0; lia.
  - reflexivity.
Qed.

(** After [n + 1] shifts the record holds the quotient by [2^(n+1)] and a
    summary of the remainder: the round bit is its top bit, the sticky bit
    tells whether anything lies below. *)
Lemma shr_iter (m : Z) (n : nat) :
  0 <= m ->
  exists low,
    let rec := Nat.iter (S n) shr_1 (Build_shr_record m false false) in
    shr_m rec = m / 2 ^ Z.of_nat (S n)
    /\ 0 <= low < 2 ^ Z.of_nat n
    /\ m mod 2 ^ Z.of_nat (S n)
       = (if shr_r rec then 2 ^ Z.of_nat n else 0) + low
    /\ (shr_s rec = true <-> low <> 0).
Proof.
  intros Hm. induction n as [|n IH].
  - exists 0. cbn [Nat.iter]. rewrite shr_1_nonneg by assumption.
    cbn [shr_m shr_r shr_s orb]. change (2 ^ Z.of_nat 1) with 2. change (2 ^ Z.of_nat 0) with 1.
    split; [reflexivity|]. split; [lia|]. split.
    + rewrite Zmod_odd. destruct (Z.odd m); reflexivity.
    + split; [discriminate|lia].
  - destruct IH as (low & Hq & Hlow & Hrem & Hs).
    set (rec := Nat.iter (S n) shr_1 (Build_shr_record m false false)) in *.
    cbv zeta in *.
    exists (m mod 2 ^ Z.of_nat (S n)).
    change (Nat.iter (S (S n)) shr_1 (Build_shr_record m false false)) with (shr_1 rec).
    destruct rec as [q r s] eqn:Erec. cbn [shr_m shr_r shr_s] in *.
    assert (Hp : 0 < 2 ^ Z.of_nat (S n)) by (apply Z.pow_pos_nonneg; lia).
    assert (Hq0 : 0 <= q) by (rewrite Hq; apply Z.div_pos; lia).
    rewrite shr_1_nonneg by assumption. cbn [shr_m shr_r shr_s].
    assert (Hpow : 2 ^ Z.of_nat (S (S n)) = 2 ^ Z.of_nat (S n) * 2).
    { rewrite (Nat2Z.inj_succ (S n)), Z.pow_succ_r by lia. lia. }
    split; [|split; [|split]].
    + rewrite Hq, Hpow, Z.div_div by lia. reflexivity.
    + apply Z.mod_pos_bound. lia.
    + rewrite Hpow, Z.rem_mul_r by lia. rewrite <- Hq, Zmod_odd.
      destruct (Z.odd q); lia.
    + rewrite Hrem. assert (0 < 2 ^ Z.of_nat n) by (apply Z.pow_pos_nonneg; lia).
      destruct r, s; cbn [orb]; split; intros; try lia; try reflexivity;
        try (exfalso; destruct Hs as [Hs1 Hs2]; (discriminate (Hs2 ltac:(lia)) || (specialize (Hs1 eq_refl); lia))).
Qed.

Lemma shr_round (m : Z) (k : positive) :
  0 <= m ->
  let rec := iter_pos shr_1 k (Build_shr_record m false false) in
  shr_m rec = m / 2 ^ Z.pos k
  /\ round_nearest_even (shr_m rec) (loc_of_shr_record rec) = rne_shift m (Z.pos k).
Proof.
  intros Hm. cbv zeta. rewrite iter_pos_nat.
  destruct (Pos2Nat.is_succ k) as [n Hn]. rewrite Hn.
  assert (Hk : Z.pos k = Z.of_nat (S n)) by (rewrite <- Hn; symmetry; apply positive_nat_Z).
  destruct (shr_iter m n Hm) as (low & Hq & Hlow & Hrem & Hs). cbv zeta in *.
  destruct (Nat.iter (S n) shr_1 (Build_shr_record m false false)) as [q r s].
  cbn [shr_m shr_r shr_s] in *. rewrite <- Hk in *.
  split; [exact Hq|].
  unfold rne_shift. replace (Z.pos k - 1) with (Z.of_nat n) by lia.
  rewrite <- Hq, Hrem.
  assert (0 < 2 ^ Z.of_nat n) by (apply Z.pow_pos_nonneg; lia).
  destruct r, s; cbn [loc_of_shr_record round_nearest_even].
  - assert (low <> 0) by (now apply Hs).
    destruct (2 ^ Z.of_nat n + low <? 2 ^ Z.of_nat n) eqn:E1; [apply Z.ltb_lt in E1; lia|].
    destruct (2 ^ Z.of_nat n <? 2 ^ Z.of_nat n + low) eqn:E2; [reflexivity|].
    apply Z.ltb_ge in E2. lia.
  - assert (low = 0).
    { destruct (Z.eq_dec low 0); [assumption|]. apply Hs in n0. discriminate. }
    subst low. rewrite Z.add_0_r, Z.ltb_irrefl. reflexivity.
  - destruct (0 + low <? 2 ^ Z.of_nat n) eqn:E1; [reflexivity|].
    apply Z.ltb_ge in E1. lia.
  - destruct (0 + low <? 2 ^ Z.of_nat n) eqn:E1; [reflexivity|].
    apply Z.ltb_ge in E1. lia.
Qed.

Section RoundBounds.
Variables (m k : Z).
Hypothesis (Hk : 1 <= k).

Let h := 2 ^ (k - 1).

Lemma rne_decompose :
  0 < h /\ 2 ^ k = 2 * h
  /\ m = (m / 2 ^ k) * (2 * h) + m mod 2 ^ k
  /\ 0 <= m mod 2 ^ k < 2 * h.
Proof.
  assert (Hh : 0 < h) by (apply Z.pow_pos_nonneg; lia).
  assert (Hp : 2 ^ k = 2 * h) by (apply pow2_pred; lia).
  split; [assumption|]. split; [assumption|]. rewrite <- Hp. split.
  - rewrite Z.mul_comm. apply Z.div_mod. lia.
  - apply Z.mod_pos_bound. lia.
Qed.

Lemma rne_range : m / 2 ^ k <= rne_shift m k <= m / 2 ^ k + 1.
Proof.
  unfold rne_shift.
  destruct (m mod 2 ^ k <? 2 ^ (k - 1)); [lia|].
  destruct (2 ^ (k - 1) <? m mod 2 ^ k); [lia|].
  destruct (Z.even (m / 2 ^ k)); lia.
Qed.

Lemma rne_lower (A : Z) :
  A * 2 ^ k - h < m \/ (A * 2 ^ k - h = m /\ Z.even A = true) ->
  A <= rne_shift m k.
Proof.
  destruct rne_decompose as (Hh & Hp & Hdiv & Hrem).
  unfold rne_shift. fold h. rewrite Hp in *.
  set (q := m / (2 * h)) in *. set (r := m mod (2 * h)) in *.
  clearbody q r. intros H.
  destruct (r <? h) eqn:E1; [apply Z.ltb_lt in E1|apply Z.ltb_ge in E1].
  - destruct H as [H|[H _]]; nia.
  - destruct (h <? r) eqn:E2; [apply Z.ltb_lt in E2|apply Z.ltb_ge in E2].
    + destruct H as [H|[H _]]; nia.
    + assert (r = h) by lia. subst r.
      destruct (Z.even q) eqn:Eq.
      * destruct H as [H|[H HA]]; [nia|].
        assert (A = q + 1) by nia. subst A.
        rewrite Z.even_add, Eq in HA. discriminate.
      * destruct H as [H|[H _]]; nia.
Qed.

Lemma rne_upper (B : Z) :
  m < B * 2 ^ k - h -> rne_shift m k < B.
Proof.
  destruct rne_decompose as (Hh & Hp & Hdiv & Hrem).
  unfold rne_shift. fold h. rewrite Hp in *.
  set (q := m / (2 * h)) in *. set (r := m mod (2 * h)) in *.
  clearbody q r. intros H.
  destruct (r <? h) eqn:E1; [apply Z.ltb_lt in E1|apply Z.ltb_ge in E1].
  - nia.
  - destruct (h <? r) eqn:E2; [apply Z.ltb_lt in E2|apply Z.ltb_ge in E2].
    + nia.
    + destruct (Z.even q); nia.
Qed.

End RoundBounds.

Lemma rne_exact (c k : Z) : 1 <= k -> rne_shift (c * 2 ^ k) k = c.
Proof.
  intros Hk. unfold rne_shift.
  assert (0 < 2 ^ k) by (apply Z.pow_pos_nonneg; lia).
  assert (0 < 2 ^ (k - 1)) by (apply Z.pow_pos_nonneg; lia).
  rewrite Z.div_mul, Z.mod_mul by lia.
  destruct (0 <? 2 ^ (k - 1)) eqn:E; [reflexivity|apply Z.ltb_ge in E; lia].
Qed.

Lemma pos_iter_xO (p n : positive) :
  Z.pos (Pos.iter xO p n) = Z.pos p * 2 ^ Z.pos n.
Proof.
  rewrite Pos2Nat.inj_iter, <- (positive_nat_Z n).
  induction (Pos.to_nat n) as [|j IH]; [simpl; lia|].
  rewrite Nat2Z.inj_succ, Z.pow_succ_r by lia.
  cbn [nat_rect]. set (y := nat_rect _ _ _ j) in *.
  rewrite (Pos2Z.inj_xO y), IH. lia.
Qed.

(** A mantissa of 53 digits in the exponent range is kept as it is. *)
Lemma round_aux_exact (mz : positive) (ez : Z) :
  Z.pos (digits2_pos mz) = 53 ->
  -1074 <= ez <= 971 ->
  binary_round_aux Py.prec Py.emax false (Z.pos mz) ez loc_Exact
  = S754_finite false mz ez.
Proof.
  intros Hd He.
  assert (Hs : shr_fexp Py.prec Py.emax (Z.pos mz) ez loc_Exact
               = (Build_shr_record (Z.pos mz) false false, ez)).
  { unfold shr_fexp, fexp, emin, Py.prec, Py.emax. cbn [Zdigits2 shr_record_of_loc].
    rewrite Hd. replace (Z.max (53 + ez - 53) (3 - 1024 - 53) - ez) with 0 by lia.
    reflexivity. }
  unfold binary_round_aux. rewrite Hs.
  cbn [shr_m loc_of_shr_record round_nearest_even]. rewrite Hs. cbn [shr_m].
  unfold Py.emax, Py.prec.
  destruct (ez <=? 1024 - 53) eqn:E; [reflexivity|apply Z.leb_gt in E; lia].
Qed.

(** A longer mantissa is shifted and rounded to 53 digits. *)
Lemma round_aux_shift (m k : positive) (e : Z) :
  Z.pos (digits2_pos m) = 53 + Z.pos k ->
  -1074 <= e + Z.pos k ->
  e + Z.pos k + 1 <= 971 ->
  exists m' e',
    binary_round_aux Py.prec Py.emax false (Z.pos m) e loc_Exact
    = S754_finite false m' e'
    /\ ((Z.pos m' = rne_shift (Z.pos m) (Z.pos k) /\ e' = e + Z.pos k)
        \/ (Z.pos m' * 2 = rne_shift (Z.pos m) (Z.pos k) /\ e' = e + Z.pos k + 1)).
Proof.
  intros Hd Hlo Hhi.
  pose proof (digits2_bounds m) as Hb. rewrite Hd in Hb.
  assert (Hpk : 0 < 2 ^ Z.pos k) by (apply Z.pow_pos_nonneg; lia).
  assert (Hq : 2 ^ 52 <= Z.pos m / 2 ^ Z.pos k < 2 ^ 53).
  { replace (53 + Z.pos k - 1) with (52 + Z.pos k) in Hb by lia.
    rewrite !Z.pow_add_r in Hb by lia. split.
    - apply Z.div_le_lower_bound; lia.
    - apply Z.div_lt_upper_bound; lia. }
  pose proof (rne_range (Z.pos m) (Z.pos k)) as HQ.
  destruct (shr_round (Z.pos m) k ltac:(lia)) as [Hsm Hrnd]. cbv zeta in *.
  set (Q := rne_shift (Z.pos m) (Z.pos k)) in *.
  assert (Hs : shr_fexp Py.prec Py.emax (Z.pos m) e loc_Exact
               = (iter_pos shr_1 k (Build_shr_record (Z.pos m) false false),
                  e + Z.pos k)).
  { unfold shr_fexp, fexp, emin, Py.prec, Py.emax. cbn [Zdigits2 shr_record_of_loc].
    rewrite Hd.
    replace (Z.max (53 + Z.pos k + e - 53) (3 - 1024 - 53) - e) with (Z.pos k) by lia.
    reflexivity. }
  unfold binary_round_aux. rewrite Hs, Hrnd.
  destruct Q as [|pq|pq] eqn:EQ; [lia| |lia].
  destruct (Z_lt_le_dec (Z.pos pq) (2 ^ 53)) as [Hlt|Hge].
  - (* the rounded mantissa still has 53 digits *)
    assert (Hdq : Z.pos (digits2_pos pq) = 53) by (apply digits2_unique; lia).
    assert (Hs2 : shr_fexp Py.prec Py.emax (Z.pos pq) (e + Z.pos k) loc_Exact
                  = (Build_shr_record (Z.pos pq) false false, e + Z.pos k)).
    { unfold shr_fexp, fexp, emin, Py.prec, Py.emax. cbn [Zdigits2 shr_record_of_loc].
      rewrite Hdq.
      replace (Z.max (53 + (e + Z.pos k) - 53) (3 - 1024 - 53) - (e + Z.pos k))
        with 0 by lia.
      reflexivity. }
    rewrite Hs2. cbn [shr_m]. unfold Py.emax, Py.prec.
    destruct (e + Z.pos k <=? 1024 - 53) eqn:E; [|apply Z.leb_gt in E; lia].
    exists pq, (e + Z.pos k). split; [reflexivity|]. left. split; reflexivity.
  - (* the rounding carried into a 54th digit *)
    assert (Hpq : Z.pos pq = 2 ^ 53) by lia.
    assert (Hdq : Z.pos (digits2_pos pq) = 54) by (apply digits2_unique; lia).
    assert (Hs2 : shr_fexp Py.prec Py.emax (Z.pos pq) (e + Z.pos k) loc_Exact
                  = (shr_1 (Build_shr_record (Z.pos pq) false false),
                     e + Z.pos k + 1)).
    { unfold shr_fexp, fexp, emin, Py.prec, Py.emax. cbn [Zdigits2 shr_record_of_loc].
      rewrite Hdq.
      replace (Z.max (54 + (e + Z.pos k) - 53) (3 - 1024 - 53) - (e + Z.pos k))
        with 1 by lia.
      reflexivity. }
    rewrite Hs2, shr_1_nonneg by lia. cbn [shr_m].
    rewrite Hpq. change (2 ^ 53 / 2) with (Z.pos (2 ^ 52)%positive).
    cbv iota beta. unfold Py.emax, Py.prec.
    destruct (e + Z.pos k + 1 <=? 1024 - 53) eqn:E; [|apply Z.leb_gt in E; lia].
    exists (2 ^ 52)%positive, (e + Z.pos k + 1). split; [reflexivity|].
    right. split; [reflexivity|reflexivity].
Qed.

(** An int below [2^53] converts exactly, to a mantissa of 53 digits. *)
Lemma float_of_int_small (L : Z) :
  0 < L < 2 ^ 53 ->
  exists (mz : positive) (d : Z),
    1 <= d <= 53
    /\ Z.pos mz = L * 2 ^ (53 - d)
    /\ 2 ^ 52 <= Z.pos mz < 2 ^ 53
    /\ Py.float_of_int L = inr (S754_finite false mz (d - 53)).
Proof.
  intros [Hpos Hlt]. destruct L as [|p|p]; try lia.
  pose proof (digits2_bounds p) as Hb.
  set (d := Z.pos (digits2_pos p)) in *.
  assert (Hd : 1 <= d <= 53).
  { split; [subst d; lia|].
    destruct (Z_lt_le_dec 53 d) as [H|H]; [|assumption].
    assert (2 ^ 53 <= 2 ^ (d - 1)) by (apply Z.pow_le_mono_r; lia). lia. }
  assert (Hmz : 2 ^ 52 <= Z.pos p * 2 ^ (53 - d) < 2 ^ 53).
  { assert (0 < 2 ^ (53 - d)) by (apply Z.pow_pos_nonneg; lia).
    assert (E1 : 2 ^ 52 = 2 ^ (d - 1) * 2 ^ (53 - d))
      by (rewrite <- Z.pow_add_r by lia; f_equal; lia).
    assert (E2 : 2 ^ 53 = 2 ^ d * 2 ^ (53 - d))
      by (rewrite <- Z.pow_add_r by lia; f_equal; lia).
    rewrite E1, E2. split; [apply Z.mul_le_mono_nonneg_r|apply Z.mul_lt_mono_pos_r]; lia. }
  unfold Py.float_of_int, binary_normalize, binary_round, shl_align.
  unfold fexp, emin, Py.prec, Py.emax. fold d.
  replace (Z.max (d + 0 - 53) (3 - 1024 - 53)) with (d - 53) by lia.
  replace (d - 53 - 0) with (d - 53) by lia.
  assert (Hra : forall mz, 2 ^ 52 <= Z.pos mz < 2 ^ 53 ->
                  binary_round_aux 53 1024 false (Z.pos mz) (d - 53) loc_Exact
                  = S754_finite false mz (d - 53)).
  { intros mz Hm. apply (round_aux_exact mz (d - 53)); [apply digits2_unique; lia|lia]. }
  destruct (d - 53) as [|pp|pp] eqn:E; [| lia |].
  - (* 53 digits already *)
    assert (E0 : 53 - d = 0) by lia. rewrite E0 in Hmz.
    change (2 ^ 0) with 1 in Hmz. rewrite Z.mul_1_r in Hmz.
    rewrite (Hra p Hmz).
    exists p, d. rewrite E, E0. change (2 ^ 0) with 1. repeat split; lia.
  - (* shifted left to 53 digits *)
    assert (Hpp : Z.pos pp = 53 - d) by lia.
    assert (Hit : Z.pos (Pos.iter xO p pp) = Z.pos p * 2 ^ (53 - d))
      by (rewrite pos_iter_xO, Hpp; reflexivity).
    rewrite (Hra (Pos.iter xO p pp)) by (rewrite Hit; exact Hmz).
    exists (Pos.iter xO p pp), d. rewrite <- Hit, E. repeat split; try lia.
Qed.

(** The int of the product of an int below [2^53] and a float below one:
    the exact product of the mantissas, rounded to 53 digits, then cut. *)
Lemma int_of_product (L : Z) (mz T k : positive) (d tE : Z) :
  Py.float_of_int L = inr (S754_finite false mz (d - 53)) ->
  Z.pos (digits2_pos (mz * T)) = 53 + Z.pos k ->
  -1074 <= d - 53 + tE + Z.pos k < 0 ->
  (x <- Py.int_mul L (Py.Float (S754_finite false T tE)) ;; Py.int_of x)
  = inr (rne_shift (Z.pos mz * Z.pos T) (Z.pos k)
         / 2 ^ (- (d - 53 + tE + Z.pos k))).
Proof.
  intros Hf Hd He.
  unfold Py.int_mul. rewrite Hf. cbn [Py.bind Py.ret Py.int_of]. unfold Py.fmul.
  cbn [SFmul xorb].
  destruct (round_aux_shift (mz * T) k (d - 53 + tE) Hd ltac:(lia) ltac:(lia))
    as (m' & e' & Hr & Hcase).
  rewrite Hr. unfold Py.int_of_float. rewrite (Pos2Z.inj_mul mz T) in Hcase.
  set (Q := rne_shift (Z.pos mz * Z.pos T) (Z.pos k)) in *.
  destruct Hcase as [[Hm He']|[Hm He']].
  - destruct (0 <=? e') eqn:E; [apply Z.leb_le in E; lia|].
    unfold Py.ret. rewrite Hm, He'. reflexivity.
  - destruct (0 <=? e') eqn:E; [apply Z.leb_le in E|apply Z.leb_gt in E].
    + assert (E0 : e' = 0) by lia. rewrite E0.
      replace (- (d - 53 + tE + Z.pos k)) with 1 by lia.
      unfold Py.ret. f_equal. rewrite <- Hm. change (2 ^ 0) with 1. change (2 ^ 1) with 2.
      rewrite Z.div_mul by lia. lia.
    + unfold Py.ret. f_equal. rewrite <- Hm.
      replace (- (d - 53 + tE + Z.pos k)) with (Z.succ (- e')) by lia.
      rewrite Z.pow_succ_r by lia.
      rewrite (Z.mul_comm 2), Z.div_mul_cancel_r; [reflexivity| |lia].
      apply Z.pow_nonzero; lia.
Qed.

Lemma div_between (a b q : Z) : 0 < b -> q * b <= a < (q + 1) * b -> a / b = q.
Proof.
  intros Hb H. symmetry. apply Z.div_unique with (a - q * b); lia.
Qed.

Lemma third_value : Py.true_div 1 3 = S754_finite false third_mantissa (-54).
Proof. reflexivity. Qed.

Lemma half_value : Py.true_div 1 2 = S754_finite false half_mantissa (-53).
Proof. reflexivity. Qed.

(** [int(L * 0.5)] is [L // 2] for an int below [2^53]. *)
Lemma int_of_half (L : Z) :
  0 < L < 2 ^ 53 ->
  (x <- Py.int_mul L (Py.Float (Py.true_div 1 2)) ;; Py.int_of x) = inr (L / 2).
Proof.
  intros HL. rewrite half_value.
  destruct (float_of_int_small L HL) as (mz & d & Hd & Hmz & Hrange & Hf).
  assert (Hw : 0 < 2 ^ (53 - d)) by (apply Z.pow_pos_nonneg; lia).
  assert (Hdig : Z.pos (digits2_pos (mz * half_mantissa)) = 53 + Z.pos 52).
  { apply digits2_unique. rewrite (Pos2Z.inj_mul mz half_mantissa).
    change (Z.pos half_mantissa) with (2 ^ 52).
    change (2 ^ (53 + 52 - 1)) with (2 ^ 52 * 2 ^ 52).
    change (2 ^ (53 + 52)) with (2 ^ 53 * 2 ^ 52). lia. }
  rewrite (int_of_product L mz half_mantissa 52 d (-53) Hf Hdig) by lia.
  f_equal. change (Z.pos half_mantissa) with (2 ^ 52).
  rewrite rne_exact by lia. rewrite Hmz.
  replace (- (d - 53 + -53 + 52)) with (Z.succ (53 - d)) by lia.
  rewrite Z.pow_succ_r by lia.
  rewrite Z.div_mul_cancel_r by lia. reflexivity.
Qed.

(** [int(L * (1/3))] is [L // 3] for an int below [2^53]. *)
Lemma int_of_third (L : Z) :
  0 < L < 2 ^ 53 ->
  (x <- Py.int_mul L (Py.Float (Py.true_div 1 3)) ;; Py.int_of x) = inr (L / 3).
Proof.
  intros HL. rewrite third_value.
  destruct (float_of_int_small L HL) as (mz & d & Hd & Hmz & Hrange & Hf).
  set (w := 2 ^ (53 - d)) in *.
  assert (Hw : 0 < w) by (apply Z.pow_pos_nonneg; lia).
  pose proof (Z.div_mod L 3 ltac:(lia)) as HLdiv.
  pose proof (Z.mod_pos_bound L 3 ltac:(lia)) as Hr.
  set (j := L / 3) in *. set (r := L mod 3) in *.
  set (u := j * w).
  assert (Hu : Z.pos mz = 3 * u + r * w) by (subst u; rewrite Hmz, HLdiv; ring).
  assert (Hj : 0 <= j) by (subst j; apply Z.div_pos; lia).
  assert (Hu0 : 0 <= u) by (subst u; apply Z.mul_nonneg_nonneg; lia).
  set (P := Z.pos mz * Z.pos third_mantissa).
  assert (HP : P = Z.pos mz * 6004799503160661) by reflexivity.
  change (2 ^ 52) with 4503599627370496 in Hrange.
  change (2 ^ 53) with 9007199254740992 in Hrange.
  assert (Hcases : r = 0 \/ r = 1 \/ r = 2) by lia.
  destruct (Z_lt_le_dec P (2 ^ 105)) as [Hsmall|Hbig].
  - (* the product has 105 digits *)
    assert (Hdig : Z.pos (digits2_pos (mz * third_mantissa)) = 53 + Z.pos 52).
    { apply digits2_unique. rewrite (Pos2Z.inj_mul mz third_mantissa). fold P.
      change (2 ^ (53 + 52 - 1)) with 20282409603651670423947251286016.
      change (2 ^ (53 + 52)) with (2 ^ 105). lia. }
    rewrite (int_of_product L mz third_mantissa 52 d (-54) Hf Hdig) by lia.
    f_equal. fold P.
    replace (- (d - 53 + -54 + 52)) with (2 + (53 - d)) by lia.
    rewrite Z.pow_add_r by lia. fold w. change (2 ^ 2) with 4.
    change (2 ^ 105) with 40564819207303340847894502572032 in Hsmall.
    apply div_between; [lia|].
    replace (j * (4 * w)) with (4 * u) by (subst u; ring).
    replace ((j + 1) * (4 * w)) with (4 * u + 4 * w) by (subst u; ring).
    split.
    + apply rne_lower; [lia|].
      change (2 ^ 52) with 4503599627370496.
      change (2 ^ (52 - 1)) with 2251799813685248.
      destruct Hcases as [E|[E|E]]; rewrite E in Hu.
      * destruct (Z.eq_dec u 2251799813685248) as [Eu|Eu].
        -- right. split; [lia|]. rewrite Z.even_mul. reflexivity.
        -- left. lia.
      * left. lia.
      * left. lia.
    + assert (H : rne_shift P 52 < 4 * u + 4 * w); [|lia].
      apply rne_upper; [lia|].
      change (2 ^ 52) with 4503599627370496.
      change (2 ^ (52 - 1)) with 2251799813685248.
      destruct Hcases as [E|[E|E]]; rewrite E in Hu; lia.
  - (* the product has 106 digits *)
    assert (Hdig : Z.pos (digits2_pos (mz * third_mantissa)) = 53 + Z.pos 53).
    { apply digits2_unique. rewrite (Pos2Z.inj_mul mz third_mantissa). fold P.
      change (2 ^ (53 + 53 - 1)) with (2 ^ 105).
      change (2 ^ (53 + 53)) with 81129638414606681695789005144064. lia. }
    rewrite (int_of_product L mz third_mantissa 53 d (-54) Hf Hdig) by lia.
    f_equal. fold P.
    replace (- (d - 53 + -54 + 53)) with (1 + (53 - d)) by lia.
    rewrite Z.pow_add_r by lia. fold w. change (2 ^ 1) with 2.
    change (2 ^ 105) with 40564819207303340847894502572032 in Hbig.
    apply div_between; [lia|].
    replace (j * (2 * w)) with (2 * u) by (subst u; ring).
    replace ((j + 1) * (2 * w)) with (2 * u + 2 * w) by (subst u; ring).
    split.
    + apply rne_lower; [lia|].
      change (2 ^ 53) with 9007199254740992.
      change (2 ^ (53 - 1)) with 4503599627370496.
      left. destruct Hcases as [E|[E|E]]; rewrite E in Hu; lia.
    + assert (H : rne_shift P 53 < 2 * u + 2 * w); [|lia].
      apply rne_upper; [lia|].
      change (2 ^ 53) with 9007199254740992.
      change (2 ^ (53 - 1)) with 4503599627370496.
      destruct Hcases as [E|[E|E]]; rewrite E in Hu; lia.
Qed.

End FloatFacts.

(** C3, as the code has it.  For a declared length [L > 0] the generator
    computes [max(1, floor(L * r))] when the ratio is the int 1, and, when the
    ratio is the float 1/3 or 1/2, for every [L] below [2^53], where the
    conversion of [L] to a float is exact.  With the ratio 1 the result is
    [L].  For the column (INTEGER, length 10) at one third the length is 3
    and the literal is 999. *)
Theorem actual_length_formula (self : TestDataGenerator.State) (L : Z) :
  0 < L ->
  TestDataGenerator.length_ratio self = TestDataGenerator.FULL \/ L < 2 ^ 53 ->
  TestDataGenerator.calculate_actual_length self L
  = inr (Z.max 1 (L * 1 / ratio_den (TestDataGenerator.length_ratio self)))
  /\ (TestDataGenerator.length_ratio self = TestDataGenerator.FULL ->
      TestDataGenerator.calculate_actual_length self L = inr L)
  /\ (forall mode,
        TestDataGenerator.calculate_actual_length
          (TestDataGenerator.init TestDataGenerator.ONE_THIRD mode) 10 = inr 3
        /\ TestDataGenerator.generate_default_value
             (TestDataGenerator.init TestDataGenerator.ONE_THIRD mode)
             Samples.id_column = inr "999").
Proof.
  intros HL Hsmall.
  assert (Hmain : TestDataGenerator.calculate_actual_length self L
                  = inr (Z.max 1 (L * 1 / ratio_den (TestDataGenerator.length_ratio self)))).
  { unfold TestDataGenerator.calculate_actual_length.
    destruct (L <=? 0) eqn:E; [apply Z.leb_le in E; lia|].
    rewrite Z.mul_1_r.
    destruct (TestDataGenerator.length_ratio self) eqn:Hr;
      cbn [TestDataGenerator.LengthRatio_value ratio_den].
    - assert (HL' : 0 < L < 2 ^ 53) by (destruct Hsmall; [discriminate|lia]).
      pose proof (int_of_third L HL') as H. unfold Py.bind in H |- *.
      destruct (Py.int_mul L (Py.Float (Py.true_div 1 3))) as [e|x]; [discriminate|].
      rewrite H. reflexivity.
    - assert (HL' : 0 < L < 2 ^ 53) by (destruct Hsmall; [discriminate|lia]).
      pose proof (int_of_half L HL') as H. unfold Py.bind in H |- *.
      destruct (Py.int_mul L (Py.Float (Py.true_div 1 2))) as [e|x]; [discriminate|].
      rewrite H. reflexivity.
    - cbn [Py.int_mul Py.bind Py.ret Py.int_of]. rewrite Z.mul_1_r, Z.div_1_r.
      reflexivity. }
  split; [exact Hmain|]. split.
  - intros Hfull. rewrite Hmain, Hfull. cbn [ratio_den].
    rewrite Z.mul_1_r, Z.div_1_r. f_equal. lia.
  - intros mode. split; reflexivity.
Qed.

Lemma actual_length_formula_witness :
  TestDataGenerator.calculate_actual_length
    (TestDataGenerator.init TestDataGenerator.ONE_THIRD TestDataGenerator.ONLY_N) 100
  = inr 33.
Proof.
  exact (proj1 (actual_length_formula
                  (TestDataGenerator.init TestDataGenerator.ONE_THIRD
                     TestDataGenerator.ONLY_N)
                  100 ltac:(lia) (or_intror eq_refl))).
Defined.

(** C3 fails for a length that no float holds exactly: at one half the
    length [2^53 + 3] gives [2^52 + 2], not [floor((2^53 + 3) / 2)], which is
    [2^52 + 1]. *)
Lemma actual_length_of_a_huge_length :
  TestDataGenerator.calculate_actual_length
    (TestDataGenerator.init TestDataGenerator.HALF TestDataGenerator.ONLY_N)
    (2 ^ 53 + 3)
  = inr (2 ^ 52 + 2)
  /\ Z.max 1 ((2 ^ 53 + 3) * 1 / 2) = 2 ^ 52 + 1
  /\ TestDataGenerator.calculate_actual_length
       (TestDataGenerator.init TestDataGenerator.HALF TestDataGenerator.ONLY_N)
       (2 ^ 53 + 3)
     <> inr (Z.max 1 ((2 ^ 53 + 3) * 1 / 2)).
Proof.
  split; [reflexivity|]. split; [reflexivity|].
  intros H. vm_compute in H. discriminate H.
Qed.

(** ** Further properties *)

(** *** The pipeline on distinct names *)

Section DistinctNames.
Import Structure TableConstruct.

Lemma set_fresh {V : Type} (d : Py.dict V) (k : string) (v : V) :
  ~ In k (Py.keys d) -> Py.set d k v = (d ++ [(k, v)])%list.
Proof.
  induction d as [|[k' v'] d IH]; simpl; intros Hk; [reflexivity|].
  destruct (String.eqb k' k) eqn:E.
  - apply String.eqb_eq in E. tauto.
  - rewrite IH by tauto. reflexivity.
Qed.

Lemma keys_columns_in_order (rows : list Row) (i : Z) :
  Py.keys (columns_in_order rows i) = map row_name rows.
Proof.
  revert i. induction rows as [|r rows IH]; intros i; simpl; [reflexivity|].
  f_equal. apply IH.
Qed.

Lemma extract_loop_distinct (rows : list Row) (i : Z) (d : Py.dict MagiTableColumn) :
  NoDup (Py.keys d ++ map row_name rows)%list ->
  extract_loop rows i d = (d ++ columns_in_order rows i)%list.
Proof.
  revert i d. induction rows as [|r rows IH]; intros i d Hnd; simpl.
  - now rewrite app_nil_r.
  - unfold extract_step. cbn [name iter_column].
    assert (Hfresh : ~ In (row_name r) (Py.keys d)).
    { intros Hin. apply NoDup_remove_2 in Hnd. apply Hnd.
      apply in_or_app. now left. }
    rewrite set_fresh by assumption. rewrite IH.
    + rewrite <- app_assoc. reflexivity.
    + unfold Py.keys in *. rewrite map_app. simpl. rewrite <- app_assoc. exact Hnd.
Qed.

Lemma ordinals_columns_in_order (rows : list Row) (i : Z) :
  map no (Py.values (columns_in_order rows i))
  = map (fun j => Some (i + Z.of_nat j)) (seq 1 (List.length rows)).
Proof.
  revert i. induction rows as [|r rows IH]; intros i; [reflexivity|].
  cbn [columns_in_order Py.values map List.length seq snd no iter_column].
  change (Z.of_nat 1) with 1. f_equal.
  fold (Py.values (columns_in_order rows (i + 1))). rewrite IH.
  rewrite <- (seq_shift (List.length rows) 1), map_map.
  apply map_ext. intros j. f_equal. lia.
Qed.

End DistinctNames.

(** X1.  When the names of the rows are pairwise distinct, the mapping built
    by [__extract_columns_to_magi_columns] has exactly one column per row, in
    the order of the rows; each column copies its row, field by field, and
    bears the ordinal [row index + 1], so the ordinals are 1, 2, ... up to
    the number of rows. *)
Theorem distinct_names_keep_rows (self : TableConstruct.State) :
  NoDup (map TableConstruct.row_name (TableConstruct.columns_view self)) ->
  TableConstruct.extract_columns_to_magi_columns self
  = columns_in_order (TableConstruct.columns_view self) 0
  /\ Py.keys (TableConstruct.extract_columns_to_magi_columns self)
     = map TableConstruct.row_name (TableConstruct.columns_view self)
  /\ List.length (TableConstruct.extract_columns_to_magi_columns self)
     = List.length (TableConstruct.columns_view self)
  /\ ordinals_contiguous (TableConstruct.extract_columns_to_magi_columns self).
Proof.
  intros Hnd. unfold TableConstruct.extract_columns_to_magi_columns.
  rewrite extract_loop_distinct by exact Hnd. cbn [app].
  split; [reflexivity|]. split; [apply keys_columns_in_order|].
  assert (Hlen : List.length (columns_in_order (TableConstruct.columns_view self) 0)
                 = List.length (TableConstruct.columns_view self)).
  { rewrite <- keys_length, keys_columns_in_order. apply length_map. }
  split; [exact Hlen|].
  unfold ordinals_contiguous. rewrite ordinals_columns_in_order, Hlen.
  apply map_ext. intros j. reflexivity.
Qed.

Lemma distinct_names_keep_rows_witness :
  Py.keys (TableConstruct.extract_columns_to_magi_columns
             (Samples.set_columns_view TableConstruct.init
                [Samples.id_row; Samples.name_row; Samples.email_row]))
  = ["id"; "name"; "email"].
Proof.
  refine (proj1 (proj2 (distinct_names_keep_rows
                          (Samples.set_columns_view TableConstruct.init
                             [Samples.id_row; Samples.name_row; Samples.email_row])
                          _))).
  repeat constructor; simpl; intuition discriminate.
Defined.

(** X2.  A name is missing from the mapping exactly when no row bears it:
    looking up the name of a row always finds a column, looking up any other
    name finds nothing. *)
Theorem lookup_finds_exactly_the_row_names (self : TableConstruct.State) (n : string) :
  Py.get (TableConstruct.extract_columns_to_magi_columns self) n = None
  <-> ~ In n (map TableConstruct.row_name (TableConstruct.columns_view self)).
Proof.
  unfold TableConstruct.extract_columns_to_magi_columns. split.
  - intros Hnone Hin.
    destruct (last_row_named _ _ Hin) as (pre & r & post & E & Hr & Hpost).
    rewrite E, <- Hr in Hnone. rewrite <- Hr in Hpost.
    rewrite extract_loop_get_last in Hnone by assumption. discriminate.
  - intros Hnot. rewrite extract_loop_get_notin by assumption. reflexivity.
Qed.

(** *** The sort of [generate_dataframe] *)

Section SortFacts.
Import Structure TestDataGenerator.

Lemma insert_sorted_perm (x : MagiTableColumn) (l : list MagiTableColumn) :
  Permutation (insert_sorted x l) (x :: l).
Proof.
  induction l as [|y l IH]; simpl; [apply Permutation_refl|].
  destruct (sort_key x <=? sort_key y); [apply Permutation_refl|].
  eapply Permutation_trans; [apply perm_skip, IH|apply perm_swap].
Qed.

Lemma sorted_perm (l : list MagiTableColumn) : Permutation (sorted l) l.
Proof.
  unfold sorted. induction l as [|x l IH]; simpl; [constructor|].
  eapply Permutation_trans; [apply insert_sorted_perm|now apply perm_skip].
Qed.

Lemma insert_sorted_hd (x a : MagiTableColumn) (l : list MagiTableColumn) :
  key_le a x -> HdRel key_le a l -> HdRel key_le a (insert_sorted x l).
Proof.
  intros Hax Hal. destruct l as [|y l]; simpl; [now constructor|].
  destruct (sort_key x <=? sort_key y); constructor; [assumption|].
  now inversion Hal.
Qed.

Lemma insert_sorted_ordered (x : MagiTableColumn) (l : list MagiTableColumn) :
  Sorted key_le l -> Sorted key_le (insert_sorted x l).
Proof.
  induction l as [|y l IH]; simpl; intros Hs.
  - repeat constructor.
  - inversion Hs as [|? ? Hl Hhd]; subst.
    destruct (sort_key x <=? sort_key y) eqn:E.
    + apply Z.leb_le in E. constructor; [assumption|now constructor].
    + apply Z.leb_gt in E. constructor; [now apply IH|].
      apply insert_sorted_hd; [unfold key_le; lia|assumption].
Qed.

Lemma sorted_ordered (l : list MagiTableColumn) : Sorted key_le (sorted l).
Proof.
  unfold sorted. induction l as [|x l IH]; simpl; [constructor|].
  now apply insert_sorted_ordered.
Qed.

Lemma insert_sorted_front (x : MagiTableColumn) (l : list MagiTableColumn) :
  HdRel key_le x l -> insert_sorted x l = x :: l.
Proof.
  intros H. destruct l as [|y l]; [reflexivity|]. simpl.
  inversion H as [|? ? Hxy]; subst. unfold key_le in Hxy.
  destruct (sort_key x <=? sort_key y) eqn:E; [reflexivity|].
  apply Z.leb_gt in E. lia.
Qed.

(** Sorting a list that is in order already changes nothing. *)
Lemma sorted_fixed (l : list MagiTableColumn) : Sorted key_le l -> sorted l = l.
Proof.
  unfold sorted. induction l as [|x l IH]; intros Hs; [reflexivity|].
  inversion Hs as [|? ? Hl Hhd]; subst. simpl. rewrite IH by assumption.
  now apply insert_sorted_front.
Qed.

Lemma insert_sorted_filter (k : Z) (x : MagiTableColumn) (l : list MagiTableColumn) :
  filter (has_key k) (insert_sorted x l) = filter (has_key k) (x :: l).
Proof.
  induction l as [|y l IH]; [reflexivity|]. cbn [insert_sorted].
  destruct (sort_key x <=? sort_key y) eqn:E; [reflexivity|].
  apply Z.leb_gt in E. cbn [filter] in *. rewrite IH.
  unfold has_key.
  destruct (sort_key x =? k) eqn:Ex; destruct (sort_key y =? k) eqn:Ey;
    try reflexivity.
  apply Z.eqb_eq in Ex, Ey. lia.
Qed.

End SortFacts.

(** X3.  The columns of a frame are sorted as a sort should: the sorted list
    is a rearrangement of the columns, none lost and none repeated; it is in
    non-decreasing order of the ordinal, a missing ordinal counting as 0; and
    sorting what is sorted already changes nothing. *)
Theorem sorted_is_a_sort (l : list Structure.MagiTableColumn) :
  Permutation (TestDataGenerator.sorted l) l
  /\ Sorted key_le (TestDataGenerator.sorted l)
  /\ List.length (TestDataGenerator.sorted l) = List.length l
  /\ TestDataGenerator.sorted (TestDataGenerator.sorted l) = TestDataGenerator.sorted l.
Proof.
  split; [apply sorted_perm|]. split; [apply sorted_ordered|]. split.
  - apply Permutation_length, sorted_perm.
  - apply sorted_fixed, sorted_ordered.
Qed.

(** X4.  The sort is stable: the columns that share an ordinal come out in
    the order in which the table holds them. *)
Theorem sorted_is_stable (l : list Structure.MagiTableColumn) (k : Z) :
  filter (has_key k) (TestDataGenerator.sorted l) = filter (has_key k) l.
Proof.
  unfold TestDataGenerator.sorted. induction l as [|x l IH]; [reflexivity|].
  cbn [fold_right]. rewrite insert_sorted_filter. cbn [filter]. now rewrite IH.
Qed.

(** *** The frame *)

Section FrameFacts.
Import Structure TestDataGenerator.

Lemma fill_rows_spec (g : State) (cols : list MagiTableColumn) (df : DataFrame) :
  fill_rows g cols = inr df <-> Forall2 (row_of g) cols df.
Proof.
  revert df. induction cols as [|c cols IH]; intros df; cbn [fill_rows].
  - split.
    + intros H. inversion H. constructor.
    + intros H. inversion H. reflexivity.
  - unfold Py.bind, Py.ret. split.
    + destruct (generated_value_of g c) as [e|v] eqn:Hv; [discriminate|].
      destruct (fill_rows g cols) as [e|rest] eqn:Hrest; [discriminate|].
      intros H. inversion H; subst. constructor; [|now apply IH].
      split; [exact Hv|reflexivity].
    + intros H. inversion H as [|? r ? rest [Hv Hr] Hrest]; subst.
      rewrite Hv. apply IH in Hrest. rewrite Hrest. now rewrite <- Hr.
Qed.

Lemma fill_rows_ok (g : State) (cols : list MagiTableColumn) :
  (exists df, fill_rows g cols = inr df)
  <-> Forall (fun c => exists v, generated_value_of g c = inr v) cols.
Proof.
  induction cols as [|c cols IH]; cbn [fill_rows].
  - split; [constructor|]. intros _. now exists [].
  - unfold Py.bind, Py.ret. split.
    + intros [df H].
      destruct (generated_value_of g c) as [e|v] eqn:Hv; [discriminate|].
      destruct (fill_rows g cols) as [e|rest] eqn:Hrest; [discriminate|].
      constructor; [now exists v|]. apply IH. now exists rest.
    + intros H. inversion H as [|? ? [v Hv] Hrest]; subst.
      apply IH in Hrest. destruct Hrest as [rest Hrest].
      rewrite Hv, Hrest. eexists; reflexivity.
Qed.

Lemma rows_names (g : State) (cols : list MagiTableColumn) (df : DataFrame) :
  Forall2 (row_of g) cols df -> map df_name df = map name cols.
Proof.
  induction 1 as [|c r cols df [_ Hr] _ IH]; [reflexivity|].
  simpl. rewrite IH, Hr. reflexivity.
Qed.

Lemma sort_key_iter_column (r : TableConstruct.Row) (i : Z) :
  sort_key (TableConstruct.iter_column r i) = i + 1.
Proof.
  unfold sort_key. simpl. destruct (i + 1 =? 0) eqn:E; [|reflexivity].
  apply Z.eqb_eq in E. lia.
Qed.

Lemma columns_in_order_sorted (rows : list TableConstruct.Row) (i : Z) :
  Sorted key_le (Py.values (columns_in_order rows i)).
Proof.
  revert i. induction rows as [|r rows IH]; intros i; [constructor|].
  cbn [columns_in_order Py.values map snd]. constructor; [apply IH|].
  destruct rows as [|r' rows]; constructor.
  unfold key_le. cbn [snd]. rewrite !sort_key_iter_column. lia.
Qed.

Lemma names_columns_in_order (rows : list TableConstruct.Row) (i : Z) :
  map name (Py.values (columns_in_order rows i)) = map TableConstruct.row_name rows.
Proof.
  revert i. induction rows as [|r rows IH]; intros i; [reflexivity|].
  cbn [columns_in_order Py.values map snd]. f_equal. apply IH.
Qed.

Lemma frame_rows_aux (g g' : State) (t : MagiTable) (df : DataFrame) :
  generate_dataframe g t = inr (df, g') ->
  Forall2 (row_of g) (sorted (Py.values (columns t))) df
  /\ g' = set_data_frame g df.
Proof.
  intros H. apply generate_dataframe_inv in H. destruct H as [Hfill Hg].
  split; [now apply fill_rows_spec|exact Hg].
Qed.

End FrameFacts.

(** X5.  [generate_dataframe] returns a frame exactly when that frame has one
    row per column of the table, in the sorted order of the columns, each row
    copying its column and holding the value generated for it; the generator
    then holds that frame and keeps its settings. *)
Theorem frame_has_a_row_per_column (g g' : TestDataGenerator.State)
    (t : Structure.MagiTable) (df : TestDataGenerator.DataFrame) :
  TestDataGenerator.generate_dataframe g t = inr (df, g')
  <-> Forall2 (row_of g)
        (TestDataGenerator.sorted (Py.values (Structure.columns t))) df
      /\ g' = TestDataGenerator.set_data_frame g df.
Proof.
  split.
  - intros H. apply generate_dataframe_inv in H. destruct H as [Hfill Hg].
    split; [now apply fill_rows_spec|exact Hg].
  - intros [Hrows ->]. apply fill_rows_spec in Hrows.
    unfold TestDataGenerator.generate_dataframe. rewrite Hrows. reflexivity.
Qed.

(** X6.  [generate_dataframe] returns a frame if and only if a value can be
    generated for every column of the table; one column whose value raises
    makes the whole call raise, with no frame. *)
Theorem frame_needs_every_column (g : TestDataGenerator.State)
    (t : Structure.MagiTable) :
  (exists df g', TestDataGenerator.generate_dataframe g t = inr (df, g'))
  <-> (forall c, In c (Py.values (Structure.columns t)) ->
         exists v, TestDataGenerator.generated_value_of g c = inr v).
Proof.
  rewrite <- Forall_forall.
  pose proof (sorted_perm (Py.values (Structure.columns t))) as Hperm.
  pose proof (fill_rows_ok g
                (TestDataGenerator.sorted (Py.values (Structure.columns t)))) as Hok.
  unfold TestDataGenerator.generate_dataframe. split.
  - intros (df & g' & H).
    apply (Permutation_Forall Hperm). apply Hok.
    destruct (TestDataGenerator.fill_rows g _) as [e|df']; [discriminate|].
    now exists df'.
  - intros Hall. apply (Permutation_Forall (Permutation_sym Hperm)) in Hall.
    apply Hok in Hall. destruct Hall as [df H]. rewrite H.
    do 2 eexists. reflexivity.
Qed.

(** A length beyond the floats: the one column makes the whole call raise. *)
Example huge_length_raises :
  TestDataGenerator.generate_dataframe
    (TestDataGenerator.init TestDataGenerator.HALF TestDataGenerator.ONLY_N)
    Samples.huge_table
  = inl (Py.OverflowError "int too large to convert to float")
  /\ exists df g',
       TestDataGenerator.generate_dataframe
         (TestDataGenerator.init TestDataGenerator.FULL TestDataGenerator.ONLY_N)
         Samples.test_table
       = inr (df, g').
Proof. split; [reflexivity|]. do 2 eexists. reflexivity. Qed.



(** X8.  For a table that the factory builds from rows of pairwise distinct
    names, the frame lists the columns in the order of the rows: the sort by
    ordinal leaves the order of the mapping as it is, so the frame, the INSERT
    statements and the DDL name the columns in one and the same order. *)
Theorem factory_then_frame_keeps_row_order (src : TableConstruct.Source)
    (self self' : TableConstruct.State) (t : Structure.MagiTable)
    (g g' : TestDataGenerator.State) (df : TestDataGenerator.DataFrame) :
  NoDup (map TableConstruct.row_name (TableConstruct.columns_view self')) ->
  TableConstruct.magi_table_factory src self = inr (t, self') ->
  TestDataGenerator.generate_dataframe g t = inr (df, g') ->
  TestDataGenerator.sorted (Py.values (Structure.columns t))
  = Py.values (Structure.columns t)
  /\ map TestDataGenerator.df_name df
     = map TableConstruct.row_name (TableConstruct.columns_view self')
  /\ map Structure.name (Py.values (Structure.columns t))
     = map TableConstruct.row_name (TableConstruct.columns_view self').
Proof.
  intros Hnd Hfac Hgen.
  assert (Hcols : Structure.columns t
                  = columns_in_order (TableConstruct.columns_view self') 0).
  { unfold TableConstruct.magi_table_factory, Py.bind, Py.ret in Hfac.
    destruct (TableConstruct.read_define src self) as [e|s]; [discriminate|].
    inversion Hfac; subst. cbn [Structure.columns].
    unfold TableConstruct.extract_columns_to_magi_columns.
    now rewrite extract_loop_distinct. }
  assert (Hfix : TestDataGenerator.sorted (Py.values (Structure.columns t))
                 = Py.values (Structure.columns t)).
  { rewrite Hcols. apply sorted_fixed, columns_in_order_sorted. }
  apply frame_rows_aux in Hgen. destruct Hgen as [Hrows _].
  apply rows_names in Hrows. rewrite Hfix in Hrows.
  split; [exact Hfix|]. rewrite Hrows, Hcols.
  split; apply names_columns_in_order.
Qed.

Lemma factory_then_frame_keeps_row_order_witness :
  exists t self' df g',
    TableConstruct.magi_table_factory Samples.demo_source TableConstruct.init
    = inr (t, self')
    /\ TestDataGenerator.generate_dataframe
         (TestDataGenerator.init TestDataGenerator.FULL TestDataGenerator.ONLY_N) t
       = inr (df, g')
    /\ map TestDataGenerator.df_name df = ["id"; "name"; "email"; "status"].
Proof.
  do 4 eexists. split; [reflexivity|]. split; [reflexivity|].
  refine (proj1 (proj2 (factory_then_frame_keeps_row_order
                          Samples.demo_source TableConstruct.init _ _
                          (TestDataGenerator.init TestDataGenerator.FULL
                             TestDataGenerator.ONLY_N)
                          _ _ _ eq_refl eq_refl))).
  repeat constructor; simpl; intuition discriminate.
Defined.

(** X9.  With a row count of zero or less the loops run no iteration: the
    single-row builder returns the empty list and no error, and the batch
    builder returns a statement whose [VALUES] clause holds no tuple at
    all. *)
Theorem insert_of_no_rows (self : TestDataGenerator.State)
    (df : TestDataGenerator.DataFrame) (table_name : string)
    (schema_name : option string) (n : Z) (output_csv : option string) :
  TestDataGenerator.data_frame self = Some df ->
  n <= 0 ->
  (exists file,
      TestDataGenerator.generate_insert_from_dataframe
        self table_name schema_name n output_csv = inr ([], file))
  /\ (exists file,
        TestDataGenerator.generate_batch_insert_from_dataframe
          self table_name schema_name n output_csv
        = inr ("INSERT INTO "
                 ++ TestDataGenerator.full_table_name table_name schema_name
                 ++ " (" ++ Py.join ", " (map TestDataGenerator.df_name df) ++ ") "
                 ++ DDLConstruct.newline ++ "VALUES " ++ DDLConstruct.newline
                 ++ "  ;", file)).
Proof.
  intros Hdf Hn.
  unfold TestDataGenerator.generate_insert_from_dataframe,
    TestDataGenerator.generate_batch_insert_from_dataframe, Py.range_len.
  rewrite Hdf. replace (Z.to_nat n) with O by lia. cbn [TestDataGenerator.append_each].
  split; eexists; reflexivity.
Qed.

Lemma insert_of_no_rows_witness :
  exists file,
    TestDataGenerator.generate_insert_from_dataframe
      Samples.loaded_generator "test_table" None (-3) None = inr ([], file).
Proof.
  exact (proj1 (insert_of_no_rows Samples.loaded_generator Samples.small_frame
                  "test_table" None (-3) None eq_refl ltac:(lia))).
Defined.

(** X10.  Writing the statements to a file never alters what is returned: for
    a given frame, table, schema and row count the returned text is the same
    whatever [output_csv] is.  A file is written exactly when [output_csv] is
    a non-empty path, and it holds the returned statements under the header
    of its builder. *)
Theorem export_leaves_the_text (self : TestDataGenerator.State)
    (df : TestDataGenerator.DataFrame) (table_name : string)
    (schema_name : option string) (n : Z) :
  TestDataGenerator.data_frame self = Some df ->
  (exists statements, forall output_csv,
      exists file,
        TestDataGenerator.generate_insert_from_dataframe
          self table_name schema_name n output_csv = inr (statements, file)
        /\ written output_csv "insert_statements" statements file)
  /\ (exists statement, forall output_csv,
        exists file,
          TestDataGenerator.generate_batch_insert_from_dataframe
            self table_name schema_name n output_csv = inr (statement, file)
          /\ written output_csv "batch_insert_statement" [statement] file).
Proof.
  intros Hdf.
  unfold TestDataGenerator.generate_insert_from_dataframe,
    TestDataGenerator.generate_batch_insert_from_dataframe.
  rewrite Hdf. split; eexists; intros output_csv; eexists;
    (split; [reflexivity|]);
    destruct output_csv as [[|c p]|]; reflexivity.
Qed.

Lemma export_leaves_the_text_witness :
  exists statements, forall output_csv,
    exists file,
      TestDataGenerator.generate_insert_from_dataframe
        Samples.loaded_generator "test_table" None 2 output_csv
      = inr (statements, file).
Proof.
  destruct (proj1 (export_leaves_the_text Samples.loaded_generator
                     Samples.small_frame "test_table" None 2 eq_refl))
    as [statements H].
  exists statements. intros output_csv.
  destruct (H output_csv) as [file [Hf _]]. now exists file.
Defined.

(** *** Lengths of the generated values *)

Section LengthFacts.
Import Structure TestDataGenerator.

Lemma calculate_actual_length_small (self : State) (L : Z) :
  0 < L < 2 ^ 53 ->
  calculate_actual_length self L
  = inr (Z.max 1 (L / ratio_den (length_ratio self))).
Proof.
  intros HL. unfold calculate_actual_length.
  destruct (L <=? 0) eqn:E; [apply Z.leb_le in E; lia|].
  destruct (length_ratio self); cbn [LengthRatio_value ratio_den].
  - pose proof (int_of_third L HL) as H. unfold Py.bind in H |- *.
    destruct (Py.int_mul L (Py.Float (Py.true_div 1 3))) as [e|x]; [discriminate|].
    rewrite H. reflexivity.
  - pose proof (int_of_half L HL) as H. unfold Py.bind in H |- *.
    destruct (Py.int_mul L (Py.Float (Py.true_div 1 2))) as [e|x]; [discriminate|].
    rewrite H. reflexivity.
  - cbn [Py.int_mul Py.bind Py.ret Py.int_of]. rewrite Z.mul_1_r, Z.div_1_r.
    reflexivity.
Qed.

Lemma calculate_actual_length_le_1 (self : State) (L : Z) :
  L <= 1 -> calculate_actual_length self L = inr 1.
Proof.
  intros HL. unfold calculate_actual_length.
  destruct (L <=? 0) eqn:E; [reflexivity|]. apply Z.leb_gt in E.
  assert (L = 1) by lia. subst L. destruct (length_ratio self); reflexivity.
Qed.

Lemma ratio_den_bounds (r : LengthRatio) : 1 <= ratio_den r <= 3.
Proof. destruct r; simpl; lia. Qed.

Lemma actual_length_within (r : LengthRatio) (L : Z) :
  1 <= L -> 1 <= Z.max 1 (L / ratio_den r) <= L.
Proof.
  intros HL. pose proof (ratio_den_bounds r) as Hd.
  assert (L / ratio_den r <= L).
  { apply Z.div_le_upper_bound; [lia|]. nia. }
  lia.
Qed.

Lemma text_body_length (self : State) (column : MagiTableColumn) (a : Z) :
  calculate_actual_length self (Py.or_int (length column) 1) = inr a ->
  exists body,
    generate_text_value self column = inr ("'" ++ body ++ "'")
    /\ Py.len body = a.
Proof.
  intros Ha. pose proof (actual_length_positive _ _ _ Ha) as Hpos.
  rewrite (generate_text_value_body self column a Ha).
  eexists. split; [reflexivity|].
  destruct (text_fill_mode self).
  - apply len_repeat. lia.
  - rewrite Z.geb_leb.
    destruct (a <=? Py.len (sanitized_comment column)) eqn:E.
    + apply Z.leb_le in E. apply len_slice. lia.
    + apply Z.leb_gt in E. rewrite len_append, len_repeat by lia. lia.
Qed.

Lemma number_is_not_text (column : MagiTableColumn) :
  number_family column ->
  Py.mem (Py.upper (data_type column)) text_types = false.
Proof.
  unfold number_family, Py.mem. simpl.
  rewrite !orb_true_iff, !String.eqb_eq. intros H.
  repeat (destruct H as [H|H]; [rewrite H; reflexivity|]).
  discriminate H.
Qed.

Lemma generate_default_value_number (self : State) (column : MagiTableColumn) :
  number_family column ->
  generate_default_value self column = generate_number_value self column.
Proof.
  intros H. unfold generate_default_value.
  rewrite (number_is_not_text column H). unfold number_family in H. now rewrite H.
Qed.

Lemma has_quote_nines (n : Z) : has_quote (Py.repeat "9" n) = false.
Proof. unfold has_quote. rewrite !has_char_repeat; reflexivity. Qed.

End LengthFacts.

(** X11.  The text generated for a character column fits the column: with a
    declared length [L] from 1 up to [2^53], the text between the quotes has
    [max(1, floor(L / d))] characters for the ratio [1/d], which is at least
    one and at most [L], in either fill mode and whatever the comment. *)
Theorem text_fits_declared_length (self : TestDataGenerator.State)
    (column : Structure.MagiTableColumn) (L : Z) :
  character_family column ->
  Structure.length column = Some L ->
  1 <= L < 2 ^ 53 ->
  exists body,
    TestDataGenerator.generate_default_value self column
    = inr ("'" ++ body ++ "'")
    /\ Py.len body
       = Z.max 1 (L / ratio_den (TestDataGenerator.length_ratio self))
    /\ 1 <= Py.len body <= L.
Proof.
  intros Hfam Hlen HL.
  assert (Hor : Py.or_int (Structure.length column) 1 = L).
  { rewrite Hlen. simpl. destruct (L =? 0) eqn:E; [apply Z.eqb_eq in E; lia|reflexivity]. }
  pose proof (calculate_actual_length_small self L ltac:(lia)) as Ha.
  rewrite <- Hor in Ha at 1.
  destruct (text_body_length self column _ Ha) as (body & Hv & Hb).
  exists body. rewrite (generate_default_value_text self column Hfam).
  split; [exact Hv|]. split; [exact Hb|].
  rewrite Hb. apply actual_length_within. lia.
Qed.

Lemma text_fits_declared_length_witness :
  exists body,
    TestDataGenerator.generate_default_value
      (TestDataGenerator.init TestDataGenerator.ONE_THIRD TestDataGenerator.COMMENT_PLUS_N)
      Samples.name_column
    = inr ("'" ++ body ++ "'")
    /\ Py.len body = 16.
Proof.
  assert (HL : 1 <= 50 < 2 ^ 53) by (split; [lia|reflexivity]).
  destruct (text_fits_declared_length
              (TestDataGenerator.init TestDataGenerator.ONE_THIRD
                 TestDataGenerator.COMMENT_PLUS_N)
              Samples.name_column 50 eq_refl eq_refl HL)
    as (body & H1 & H2 & _).
  exists body. split; [exact H1|exact H2].
Defined.

(** X12.  The literal generated for a numeric column is made of the digit 9
    alone and is never quoted; with a declared length [L] from 1 up to [2^53]
    it has [max(1, floor(L / d))] digits for the ratio [1/d], at most [L]. *)
Theorem number_fits_declared_length (self : TestDataGenerator.State)
    (column : Structure.MagiTableColumn) (L : Z) :
  number_family column ->
  Structure.length column = Some L ->
  1 <= L < 2 ^ 53 ->
  let digits := Z.max 1 (L / ratio_den (TestDataGenerator.length_ratio self)) in
  TestDataGenerator.generate_default_value self column
  = inr (Py.repeat "9" digits)
  /\ Py.len (Py.repeat "9" digits) = digits
  /\ 1 <= digits <= L
  /\ has_quote (Py.repeat "9" digits) = false.
Proof.
  intros Hfam Hlen HL digits.
  assert (Hor : Py.or_int (Structure.length column) 9 = L).
  { rewrite Hlen. simpl. destruct (L =? 0) eqn:E; [apply Z.eqb_eq in E; lia|reflexivity]. }
  pose proof (actual_length_within (TestDataGenerator.length_ratio self) L ltac:(lia))
    as Hin. fold digits in Hin.
  rewrite (generate_default_value_number self column Hfam).
  unfold TestDataGenerator.generate_number_value.
  rewrite Hor, (calculate_actual_length_small self L) by lia. fold digits.
  split; [reflexivity|]. split; [apply len_repeat; lia|].
  split; [exact Hin|apply has_quote_nines].
Qed.

Lemma number_fits_declared_length_witness :
  TestDataGenerator.generate_default_value
    (TestDataGenerator.init TestDataGenerator.HALF TestDataGenerator.ONLY_N)
    Samples.amount_column
  = inr "9999999".
Proof.
  assert (HL : 1 <= 15 < 2 ^ 53) by (split; [lia|reflexivity]).
  exact (proj1 (number_fits_declared_length
                  (TestDataGenerator.init TestDataGenerator.HALF
                     TestDataGenerator.ONLY_N)
                  Samples.amount_column 15 eq_refl eq_refl HL)).
Defined.

(** X13.  A column without a usable length still gets a value, at every
    ratio.  A character column whose length is absent, zero, one or negative
    gets exactly one character between the quotes.  A numeric column whose
    length is absent or zero falls back to 9 and gets [floor(9 / d)] digits
    for the ratio [1/d]; with a negative length it gets the single digit 9. *)
Theorem value_without_a_length (self : TestDataGenerator.State)
    (column : Structure.MagiTableColumn) :
  (character_family column ->
   Structure.length column = None
   \/ (exists L, Structure.length column = Some L /\ L <= 1) ->
   exists body,
     TestDataGenerator.generate_default_value self column
     = inr ("'" ++ body ++ "'")
     /\ Py.len body = 1)
  /\ (number_family column ->
      Structure.length column = None \/ Structure.length column = Some 0 ->
      TestDataGenerator.generate_default_value self column
      = inr (Py.repeat "9" (9 / ratio_den (TestDataGenerator.length_ratio self))))
  /\ (number_family column ->
      (exists L, Structure.length column = Some L /\ L < 0) ->
      TestDataGenerator.generate_default_value self column = inr "9").
Proof.
  split; [|split].
  - intros Hfam Hlen.
    assert (Hor : Py.or_int (Structure.length column) 1 <= 1).
    { destruct Hlen as [->|(L & -> & HL)]; simpl; [lia|].
      destruct (L =? 0); lia. }
    pose proof (calculate_actual_length_le_1 self _ Hor) as Ha.
    destruct (text_body_length self column 1 Ha) as (body & Hv & Hb).
    exists body. rewrite (generate_default_value_text self column Hfam).
    split; assumption.
  - intros Hfam Hlen.
    rewrite (generate_default_value_number self column Hfam).
    unfold TestDataGenerator.generate_number_value.
    assert (Hor : Py.or_int (Structure.length column) 9 = 9)
      by (destruct Hlen as [->| ->]; reflexivity).
    rewrite Hor. unfold TestDataGenerator.calculate_actual_length.
    destruct (TestDataGenerator.length_ratio self); reflexivity.
  - intros Hfam (L & Hlen & HL).
    rewrite (generate_default_value_number self column Hfam).
    unfold TestDataGenerator.generate_number_value.
    assert (Hor : Py.or_int (Structure.length column) 9 = L).
    { rewrite Hlen. simpl. destruct (L =? 0) eqn:E; [apply Z.eqb_eq in E; lia|reflexivity]. }
    rewrite Hor, calculate_actual_length_le_1 by lia. reflexivity.
Qed.

Lemma value_without_a_length_witness :
  TestDataGenerator.generate_default_value
    (TestDataGenerator.init TestDataGenerator.HALF TestDataGenerator.ONLY_N)
    (Samples.column "n" "int" None false false false None None None)
  = inr "9999".
Proof.
  exact (proj1 (proj2 (value_without_a_length
                         (TestDataGenerator.init TestDataGenerator.HALF
                            TestDataGenerator.ONLY_N)
                         (Samples.column "n" "int" None false false false
                            None None None)))
           eq_refl (or_introl eq_refl)).
Defined.

(** X14.  In filler-only mode the comment is never read, and in
    comment-plus-filler mode a comment that is absent, empty or made of quote
    characters alone counts for nothing: in all these cases the text is the
    filler [N] repeated [actual_length] times, between single quotes. *)
Theorem filler_alone (self : TestDataGenerator.State)
    (column : Structure.MagiTableColumn) (a : Z) :
  TestDataGenerator.calculate_actual_length self
    (Py.or_int (Structure.length column) 1) = inr a ->
  TestDataGenerator.text_fill_mode self = TestDataGenerator.ONLY_N
  \/ sanitized_comment column = EmptyString ->
  TestDataGenerator.generate_text_value self column
  = inr ("'" ++ Py.repeat "N" a ++ "'")
  /\ (TestDataGenerator.text_fill_mode self = TestDataGenerator.ONLY_N ->
      forall x,
        TestDataGenerator.generate_text_value self (with_comment column x)
        = TestDataGenerator.generate_text_value self column).
Proof.
  intros Ha Hcase. pose proof (actual_length_positive _ _ _ Ha) as Hpos. split.
  - rewrite (generate_text_value_body self column a Ha).
    destruct Hcase as [->|Hs]; [reflexivity|].
    destruct (TestDataGenerator.text_fill_mode self); [reflexivity|].
    rewrite Hs. change (Py.len EmptyString) with 0. rewrite Z.geb_leb.
    destruct (a <=? 0) eqn:E; [apply Z.leb_le in E; lia|].
    simpl. now rewrite Z.sub_0_r.
  - intros Hmode x.
    assert (Ha' : TestDataGenerator.calculate_actual_length self
                    (Py.or_int (Structure.length (with_comment column x)) 1) = inr a)
      by exact Ha.
    rewrite (generate_text_value_body self column a Ha).
    rewrite (generate_text_value_body self (with_comment column x) a Ha').
    now rewrite Hmode.
Qed.

Lemma filler_alone_witness :
  TestDataGenerator.generate_text_value
    (TestDataGenerator.init TestDataGenerator.FULL TestDataGenerator.COMMENT_PLUS_N)
    (Samples.column "c" "CHAR" (Some 3) false false false None (Some "''") None)
  = inr "'NNN'".
Proof.
  exact (proj1 (filler_alone
                  (TestDataGenerator.init TestDataGenerator.FULL
                     TestDataGenerator.COMMENT_PLUS_N)
                  (Samples.column "c" "CHAR" (Some 3) false false false None
                     (Some "''") None)
                  3 eq_refl (or_intror eq_refl))).
Defined.

(** *** The choice of a value by type *)

Section TypeDispatch.
Import Structure TestDataGenerator.

Lemma upper_lower_char (c : ascii) :
  Py.upper_char (Py.lower_char c) = Py.upper_char c.
Proof. destruct c as [[] [] [] [] [] [] [] []]; reflexivity. Qed.

Lemma upper_upper_char (c : ascii) :
  Py.upper_char (Py.upper_char c) = Py.upper_char c.
Proof. destruct c as [[] [] [] [] [] [] [] []]; reflexivity. Qed.

Lemma upper_lower (s : string) : Py.upper (Py.lower s) = Py.upper s.
Proof.
  induction s as [|c s IH]; [reflexivity|].
  unfold Py.lower, Py.upper in *. simpl. now rewrite upper_lower_char, IH.
Qed.

Lemma upper_upper (s : string) : Py.upper (Py.upper s) = Py.upper s.
Proof.
  induction s as [|c s IH]; [reflexivity|].
  unfold Py.upper in *. simpl. now rewrite upper_upper_char, IH.
Qed.

Lemma generate_default_value_by_upper (self : State) (c : MagiTableColumn) (t : string) :
  Py.upper t = Py.upper (data_type c) ->
  generate_default_value self (with_data_type c t) = generate_default_value self c.
Proof.
  intros H. unfold generate_default_value. cbn [data_type with_data_type].
  rewrite H. reflexivity.
Qed.

End TypeDispatch.

(** X15.  The value generator tells the types apart without regard to the
    case of their letters: a column gets the same value whether its type is
    written as it is, in lower case or in upper case, and two columns that
    differ in their type alone get the same value as soon as the two types
    are equal in upper case. *)
Theorem type_case_does_not_matter (self : TestDataGenerator.State)
    (column : Structure.MagiTableColumn) :
  TestDataGenerator.generate_default_value self
    (with_data_type column (Py.lower (Structure.data_type column)))
  = TestDataGenerator.generate_default_value self column
  /\ TestDataGenerator.generate_default_value self
       (with_data_type column (Py.upper (Structure.data_type column)))
     = TestDataGenerator.generate_default_value self column
  /\ (forall t,
        Py.upper t = Py.upper (Structure.data_type column) ->
        TestDataGenerator.generated_value_of self (with_data_type column t)
        = TestDataGenerator.generated_value_of self column).
Proof.
  split; [|split].
  - apply generate_default_value_by_upper, upper_lower.
  - apply generate_default_value_by_upper, upper_upper.
  - intros t Ht. unfold TestDataGenerator.generated_value_of.
    cbn [Structure.default with_data_type].
    now rewrite (generate_default_value_by_upper self column t Ht).
Qed.

(** X16.  The setters change one setting and nothing else.  The frame stays,
    so the INSERT builders return what they returned before, until
    [generate_dataframe] runs again; and the next run generates what a
    generator constructed with the new settings generates. *)
Theorem setters_keep_the_frame (g : TestDataGenerator.State)
    (ratio : TestDataGenerator.LengthRatio) (mode : TestDataGenerator.TextFillMode)
    (table_name : string) (schema_name : option string) (rows_count : Z)
    (output_csv : option string) (t : Structure.MagiTable) :
  let g' :=
    TestDataGenerator.set_text_fill_mode
      (TestDataGenerator.set_length_ratio g ratio) mode in
  TestDataGenerator.data_frame g' = TestDataGenerator.data_frame g
  /\ TestDataGenerator.generate_insert_from_dataframe
       g' table_name schema_name rows_count output_csv
     = TestDataGenerator.generate_insert_from_dataframe
         g table_name schema_name rows_count output_csv
  /\ TestDataGenerator.generate_batch_insert_from_dataframe
       g' table_name schema_name rows_count output_csv
     = TestDataGenerator.generate_batch_insert_from_dataframe
         g table_name schema_name rows_count output_csv
  /\ frame_of (TestDataGenerator.generate_dataframe g' t)
     = frame_of (TestDataGenerator.generate_dataframe
                   (TestDataGenerator.init ratio mode) t).
Proof.
  intros g'. split; [reflexivity|]. split; [reflexivity|]. split; [reflexivity|].
  rewrite !generate_dataframe_frame. apply fill_rows_config; reflexivity.
Qed.

(** X17.  [save_dataframe_to_csv] raises its own [ValueError], another one
    than that of the INSERT builders, while the generator holds no frame;
    after [generate_dataframe] or [load_dataframe_from_csv] it writes, to the
    path given, exactly the frame that call returned. *)
Theorem save_writes_the_frame_held (g : TestDataGenerator.State) (file_path : string) :
  (TestDataGenerator.data_frame g = None ->
   TestDataGenerator.save_dataframe_to_csv g file_path
   = inl TestDataGenerator.not_generated)
  /\ TestDataGenerator.not_generated <> TestDataGenerator.not_loaded
  /\ (forall t df g',
        TestDataGenerator.generate_dataframe g t = inr (df, g') ->
        TestDataGenerator.save_dataframe_to_csv g' file_path = inr (file_path, df))
  /\ (forall parsed,
        TestDataGenerator.save_dataframe_to_csv
          (snd (TestDataGenerator.load_dataframe_from_csv g parsed)) file_path
        = inr (file_path, parsed)).
Proof.
  split; [|split; [|split]].
  - intros H. unfold TestDataGenerator.save_dataframe_to_csv. now rewrite H.
  - discriminate.
  - intros t df g' H. apply generate_dataframe_inv in H. destruct H as [_ ->].
    reflexivity.
  - intros parsed. reflexivity.
Qed.

Lemma save_writes_the_frame_held_witness :
  TestDataGenerator.save_dataframe_to_csv
    (TestDataGenerator.init TestDataGenerator.FULL TestDataGenerator.ONLY_N) "out.csv"
  = inl TestDataGenerator.not_generated.
Proof.
  exact (proj1 (save_writes_the_frame_held
                  (TestDataGenerator.init TestDataGenerator.FULL
                     TestDataGenerator.ONLY_N) "out.csv") eq_refl).
Defined.

(** *** The DDL text *)

Section DdlFacts.
Import Structure DDLConstruct.

Lemma append_assoc (a b c : string) : (a ++ b) ++ c = a ++ b ++ c.
Proof. induction a as [|x a IH]; simpl; [reflexivity|now rewrite IH]. Qed.

Lemma build_ddl_any_database (t : MagiTable) (d1 d2 : string) :
  build_ddl t d1 = build_ddl t d2.
Proof.
  unfold build_ddl, _build_column_definition.
  destruct (String.eqb d1 "oracle"), (String.eqb d2 "oracle"); reflexivity.
Qed.

Lemma create_table_supported (t : MagiTable) (database : string) :
  supported database -> create_table t database = build_ddl t database.
Proof.
  intros H. apply mem_supported in H. unfold create_table. now rewrite H.
Qed.

Lemma column_comments_none (n : string) (cols : list MagiTableColumn) :
  Forall (fun c => Py.truthy_opt_str (comment c) = false) cols ->
  column_comments n cols = EmptyString.
Proof.
  induction 1 as [|c cols Hc _ IH]; simpl; [reflexivity|].
  now rewrite Hc, IH.
Qed.

(** The text of a named table: its [CREATE TABLE] statement, then the rest. *)
Lemma build_ddl_text (t : MagiTable) (database n : string) :
  table_name t = Some n ->
  exists tail,
    build_ddl t database
    = inr (create_statement n (Py.values (columns t)) database ++ tail)
    /\ (plain_table t -> tail = EmptyString).
Proof.
  intros Hn. unfold build_ddl, get_ddl_string.
  cbn [set_table MagiDDL_init table temporary if_not_exists schema_name
       Py.truthy_opt_str].
  rewrite Hn. cbn [join_opt_last Py.bind Py.ret fmt_opt app Py.join String.concat].
  set (head := "CREATE" ++ " " ++ "TABLE" ++ " " ++ n).
  set (body := " (" ++ newline ++ "    "
               ++ Py.join ("," ++ newline ++ "    ")
                    (map (fun col => _build_column_definition col database)
                       (Py.values (columns t)))
               ++ newline ++ ")").
  assert (Hhead : head ++ body = create_statement n (Py.values (columns t)) database).
  { subst head body. unfold create_statement, Py.join. simpl. reflexivity. }
  set (part1 := if Py.truthy_opt_str (table_comment t)
                then newline ++ "COMMENT ON TABLE " ++ n ++ " IS '"
                     ++ fmt_opt (table_comment t) ++ "'"
                else EmptyString).
  set (part2 := column_comments n (Py.values (columns t))).
  set (part3 := match indexes t with
                | [] => EmptyString
                | _ => ";" ++ newline
                       ++ String.concat (";" ++ newline)
                            (map (_build_index_definition n) (Py.values (indexes t)))
                end).
  exists (part1 ++ part2 ++ part3). split.
  - f_equal. rewrite <- Hhead. clear Hhead.
    subst part1 part3. clearbody head body part2.
    destruct (Py.truthy_opt_str (table_comment t));
      [destruct (String.eqb database "oracle")|];
      destruct (indexes t);
      rewrite ?append_assoc, ?append_empty_r; reflexivity.
  - intros (Hc & Hcols & Hidx). subst part1 part2 part3.
    rewrite Hc, Hidx, (column_comments_none n _ Hcols). reflexivity.
Qed.

End DdlFacts.

(** X18.  The two supported dialects get the same text: whatever the case of
    its letters, [oracle] or [postgres] makes no difference to what
    [create_table] returns, be it text or an error. *)
Theorem dialects_give_one_text (t : Structure.MagiTable) (d1 d2 : string) :
  supported d1 -> supported d2 ->
  DDLConstruct.create_table t d1 = DDLConstruct.create_table t d2.
Proof.
  intros H1 H2. rewrite !create_table_supported by assumption.
  apply build_ddl_any_database.
Qed.

Lemma dialects_give_one_text_witness :
  DDLConstruct.create_table Samples.test_table "ORACLE"
  = DDLConstruct.create_table Samples.test_table "postgres".
Proof.
  exact (dialects_give_one_text Samples.test_table "ORACLE" "postgres"
           (or_introl eq_refl) (or_intror eq_refl)).
Defined.

(** X19.  The DDL never carries the schema.  What [create_table] returns does
    not depend on the schema of the table, and for a table that has a name
    the text opens with [CREATE TABLE], the bare name, and one clause per
    column in the order of the mapping. *)
Theorem ddl_leaves_the_schema_out (t : Structure.MagiTable)
    (database : string) (schema : option string) :
  DDLConstruct.create_table (with_schema t schema) database
  = DDLConstruct.create_table t database
  /\ (forall n,
        supported database ->
        Structure.table_name t = Some n ->
        exists tail,
          DDLConstruct.create_table t database
          = inr (create_statement n (Py.values (Structure.columns t)) database
                 ++ tail)).
Proof.
  split; [reflexivity|].
  intros n Hs Hn. rewrite create_table_supported by assumption.
  destruct (build_ddl_text t database n Hn) as (tail & H & _).
  now exists tail.
Qed.

Lemma ddl_leaves_the_schema_out_witness :
  exists tail,
    DDLConstruct.create_table Samples.test_table "oracle"
    = inr (create_statement "test_table"
             (Py.values (Structure.columns Samples.test_table)) "oracle"
           ++ tail).
Proof.
  exact (proj2 (ddl_leaves_the_schema_out Samples.test_table "oracle" None)
           "test_table" (or_introl eq_refl) eq_refl).
Defined.

(** X20.  A table without a name cannot be rendered.  When the source has set
    no table name, the table the factory returns makes [create_table] raise a
    [TypeError] for either supported dialect, from the join of the header
    words, and no text is returned. *)
Theorem unnamed_table_is_not_rendered (src : TableConstruct.Source)
    (self self' : TableConstruct.State) (t : Structure.MagiTable)
    (database : string) :
  TableConstruct.magi_table_factory src self = inr (t, self') ->
  TableConstruct.self_table_name self' = None ->
  supported database ->
  DDLConstruct.create_table t database
  = inl (Py.TypeError "sequence item 2: expected str instance, NoneType found").
Proof.
  intros Hfac Hname Hs. rewrite create_table_supported by assumption.
  assert (Hn : Structure.table_name t = None).
  { unfold TableConstruct.magi_table_factory, Py.bind, Py.ret in Hfac.
    destruct (TableConstruct.read_define src self) as [e|s]; [discriminate|].
    inversion Hfac; subst. exact Hname. }
  unfold DDLConstruct.build_ddl, Structure.get_ddl_string.
  cbn [Structure.set_table Structure.MagiDDL_init Structure.table
       Structure.temporary Structure.if_not_exists Structure.schema_name
       Py.truthy_opt_str].
  rewrite Hn. reflexivity.
Qed.

Lemma unnamed_table_is_not_rendered_witness :
  exists t self',
    TableConstruct.magi_table_factory Samples.unnamed_source TableConstruct.init
    = inr (t, self')
    /\ DDLConstruct.create_table t "oracle"
       = inl (Py.TypeError "sequence item 2: expected str instance, NoneType found").
Proof.
  do 2 eexists. split; [reflexivity|].
  exact (unnamed_table_is_not_rendered Samples.unnamed_source TableConstruct.init
           _ _ "oracle" eq_refl eq_refl (or_introl eq_refl)).
Defined.

(** X21.  For a table that has a name, no comment of its own, no comment on
    any column and no index, the DDL is the [CREATE TABLE] statement and
    nothing else: no [COMMENT] statement, no [CREATE INDEX] statement and no
    separator after the closing parenthesis. *)
Theorem plain_table_text (t : Structure.MagiTable) (database n : string) :
  supported database ->
  Structure.table_name t = Some n ->
  plain_table t ->
  DDLConstruct.create_table t database
  = inr (create_statement n (Py.values (Structure.columns t)) database).
Proof.
  intros Hs Hn Hplain. rewrite create_table_supported by assumption.
  destruct (build_ddl_text t database n Hn) as (tail & H & Htail).
  rewrite H, (Htail Hplain), append_empty_r. reflexivity.
Qed.

Lemma plain_table_text_witness :
  DDLConstruct.create_table
    (with_schema
       {| Structure.table_name := Some "t"; Structure.table_comment := None;
          Structure.table_schema := None;
          Structure.columns := [("amount", Samples.amount_column)];
          Structure.indexes := [] |} None)
    "oracle"
  = inr (create_statement "t" [Samples.amount_column] "oracle").
Proof.
  apply plain_table_text; [left; reflexivity|reflexivity|].
  split; [reflexivity|]. split; [|reflexivity].
  repeat constructor.
Defined.

Section StatementOrder.
Import Structure DDLConstruct.

Lemma column_comments_statements (n : string) (cols : list MagiTableColumn) :
  column_comments n cols
  = statements (map (column_comment_statement n) (filter has_comment cols)).
Proof.
  induction cols as [|c cols IH]; [reflexivity|].
  cbn [column_comments filter]. unfold has_comment at 1.
  destruct (Py.truthy_opt_str (comment c)).
  - cbn [map statements]. rewrite <- IH. unfold column_comment_statement.
    rewrite !append_assoc. reflexivity.
  - rewrite IH. reflexivity.
Qed.

Lemma join_statements (sep : string) (x : string) (l : list string) :
  sep ++ Py.join sep (x :: l) = statements (map (fun s => sep ++ s) (x :: l)).
Proof.
  revert x. induction l as [|y l IH]; intros x.
  - cbn [map statements]. unfold Py.join. cbn [String.concat].
    now rewrite append_assoc, append_empty_r.
  - cbn [map statements] in *. unfold Py.join in *.
    change (String.concat sep (x :: y :: l))
      with (x ++ sep ++ String.concat sep (y :: l)).
    rewrite (IH y), !append_assoc. reflexivity.
Qed.

End StatementOrder.

(** X22.  The statements of the DDL come in a fixed order, each kind in the
    order of its mapping: the [CREATE TABLE] statement; then the comment of
    the table, if it has one, after a line break with no semicolon before it;
    then one [COMMENT ON COLUMN] for each column that has a comment and for
    no other, each after a semicolon; then one [CREATE INDEX] for each index,
    each after a semicolon.  The last statement has no semicolon after it. *)
Theorem ddl_statement_order (t : Structure.MagiTable) (database n : string) :
  supported database ->
  Structure.table_name t = Some n ->
  DDLConstruct.create_table t database
  = inr (create_statement n (Py.values (Structure.columns t)) database
         ++ (if Py.truthy_opt_str (Structure.table_comment t)
             then table_comment_statement n t else EmptyString)
         ++ statements
              (map (column_comment_statement n)
                 (filter has_comment (Py.values (Structure.columns t))))
         ++ statements
              (map (index_statement n) (Py.values (Structure.indexes t)))).
Proof.
  intros Hs Hn. rewrite create_table_supported by assumption.
  unfold DDLConstruct.build_ddl, Structure.get_ddl_string.
  cbn [Structure.set_table Structure.MagiDDL_init Structure.table
       Structure.temporary Structure.if_not_exists Structure.schema_name
       Py.truthy_opt_str].
  rewrite Hn.
  cbn [Structure.join_opt_last Py.bind Py.ret DDLConstruct.fmt_opt app].
  rewrite column_comments_statements.
  set (cc := statements _).
  assert (Hhead : Py.join " " ["CREATE"; "TABLE"; n] ++ " (" ++ DDLConstruct.newline
                  ++ "    "
                  ++ Py.join ("," ++ DDLConstruct.newline ++ "    ")
                       (map (fun col => DDLConstruct._build_column_definition col database)
                          (Py.values (Structure.columns t)))
                  ++ DDLConstruct.newline ++ ")"
                  = create_statement n (Py.values (Structure.columns t)) database).
  { unfold create_statement, Py.join. simpl. reflexivity. }
  rewrite Hhead. clear Hhead.
  set (head := create_statement n (Py.values (Structure.columns t)) database).
  clearbody head cc.
  assert (Hidx : match Structure.indexes t with
                 | [] => EmptyString
                 | _ => ";" ++ DDLConstruct.newline
                        ++ Py.join (";" ++ DDLConstruct.newline)
                             (map (DDLConstruct._build_index_definition n)
                                (Py.values (Structure.indexes t)))
                 end
                 = statements (map (index_statement n)
                                 (Py.values (Structure.indexes t)))).
  { destruct (Structure.indexes t) as [|[k i] l]; [reflexivity|].
    cbn [Py.values map snd].
    rewrite <- append_assoc, (join_statements (";" ++ DDLConstruct.newline)).
    cbn [map]. unfold index_statement.
    rewrite map_map. cbn [statements]. rewrite !append_assoc.
    reflexivity. }
  rewrite <- Hidx. unfold table_comment_statement.
  f_equal.
  destruct (Py.truthy_opt_str (Structure.table_comment t));
    [destruct (String.eqb database "oracle")|];
    destruct (Structure.indexes t);
    rewrite ?append_assoc, ?append_empty_r; reflexivity.
Qed.

Lemma ddl_statement_order_witness :
  exists text,
    DDLConstruct.create_table Samples.test_table "oracle" = inr text.
Proof.
  eexists.
  exact (ddl_statement_order Samples.test_table "oracle" "test_table"
           (or_introl eq_refl) eq_refl).
Defined.

Section DefaultFacts.
Import Structure TestDataGenerator.

Lemma default_row_value (c : MagiTableColumn) (d : string) :
  default_overrides c d -> default_row c = frame_row c d.
Proof.
  intros (Hd & Hne & _). unfold default_row, Py.or_str. rewrite Hd.
  destruct d; [contradiction|reflexivity].
Qed.

Lemma fill_rows_defaults (g : State) (cols : list MagiTableColumn) :
  Forall (fun c => exists d, default_overrides c d) cols ->
  fill_rows g cols = inr (map default_row cols).
Proof.
  induction 1 as [|c cols [d Hd] _ IH]; [reflexivity|].
  cbn [fill_rows map]. rewrite (generated_value_of_default g c d Hd), IH.
  rewrite (default_row_value c d Hd). reflexivity.
Qed.

End DefaultFacts.

(** X23.  When every column of the table has a default that is neither empty
    nor the word NULL, [generate_dataframe] never raises and never generates:
    the frame has the rows of the sorted columns with their defaults as
    values, whatever the ratio, the fill mode, the types and the lengths, so
    every generator gets the same frame. *)
Theorem defaults_fill_the_frame (g : TestDataGenerator.State)
    (t : Structure.MagiTable) :
  (forall c, In c (Py.values (Structure.columns t)) ->
     exists d, default_overrides c d) ->
  let df := map default_row
              (TestDataGenerator.sorted (Py.values (Structure.columns t))) in
  TestDataGenerator.generate_dataframe g t
  = inr (df, TestDataGenerator.set_data_frame g df)
  /\ forall g', frame_of (TestDataGenerator.generate_dataframe g' t) = inr df.
Proof.
  intros Hall df.
  assert (Hfill : forall g0,
            TestDataGenerator.fill_rows g0
              (TestDataGenerator.sorted (Py.values (Structure.columns t)))
            = inr df).
  { intros g0. apply fill_rows_defaults.
    apply (Permutation_Forall
             (Permutation_sym (sorted_perm (Py.values (Structure.columns t))))).
    now apply Forall_forall. }
  unfold TestDataGenerator.generate_dataframe. split.
  - rewrite Hfill. reflexivity.
  - intros g'. rewrite Hfill. reflexivity.
Qed.

Lemma defaults_fill_the_frame_witness :
  frame_of
    (TestDataGenerator.generate_dataframe
       (TestDataGenerator.init TestDataGenerator.HALF TestDataGenerator.ONLY_N)
       Samples.defaults_table)
  = inr [default_row Samples.status_column;
         default_row Samples.huge_default_column;
         default_row Samples.owner_column].
Proof.
  assert (H : forall c,
            In c (Py.values (Structure.columns Samples.defaults_table)) ->
            exists d, default_overrides c d).
  { intros c [<-|[<-|[<-|[]]]]; eexists;
      (split; [reflexivity|split; discriminate]). }
  exact (proj2 (defaults_fill_the_frame
                  (TestDataGenerator.init TestDataGenerator.FULL
                     TestDataGenerator.COMMENT_PLUS_N)
                  Samples.defaults_table H)
           (TestDataGenerator.init TestDataGenerator.HALF TestDataGenerator.ONLY_N)).
Defined.

(** X24.  Below [2^53] the length in use grows with the declared length and
    with the ratio: for declared lengths [0 < L <= L'] and a ratio that is at
    most a second one, the length computed from [L] at the first ratio is at
    most the length computed from [L'] at the second, both are computed
    without an exception, and both lie between 1 and their declared
    length. *)
Theorem actual_length_grows (g g' : TestDataGenerator.State) (L L' : Z) :
  0 < L <= L' -> L' < 2 ^ 53 ->
  ratio_le (TestDataGenerator.length_ratio g) (TestDataGenerator.length_ratio g') ->
  exists a a',
    TestDataGenerator.calculate_actual_length g L = inr a
    /\ TestDataGenerator.calculate_actual_length g' L' = inr a'
    /\ 1 <= a <= L /\ 1 <= a' <= L' /\ a <= a'.
Proof.
  intros HL HL' Hr. unfold ratio_le in Hr.
  pose proof (ratio_den_bounds (TestDataGenerator.length_ratio g)) as Hd.
  pose proof (ratio_den_bounds (TestDataGenerator.length_ratio g')) as Hd'.
  do 2 eexists.
  split; [apply calculate_actual_length_small; lia|].
  split; [apply calculate_actual_length_small; lia|].
  split; [apply actual_length_within; lia|].
  split; [apply actual_length_within; lia|].
  apply Z.max_le_compat_l.
  transitivity (L' / ratio_den (TestDataGenerator.length_ratio g)).
  - apply Z.div_le_mono; lia.
  - apply Z.div_le_compat_l; lia.
Qed.

Lemma actual_length_grows_witness :
  exists a a',
    TestDataGenerator.calculate_actual_length
      (TestDataGenerator.init TestDataGenerator.ONE_THIRD TestDataGenerator.ONLY_N) 10
    = inr a
    /\ TestDataGenerator.calculate_actual_length
         (TestDataGenerator.init TestDataGenerator.HALF TestDataGenerator.ONLY_N) 15
       = inr a'
    /\ 1 <= a <= 10 /\ 1 <= a' <= 15 /\ a <= a'.
Proof.
  assert (HL : 0 < 10 <= 15) by lia.
  assert (HL' : 15 < 2 ^ 53) by reflexivity.
  assert (Hr : ratio_le TestDataGenerator.ONE_THIRD TestDataGenerator.HALF)
    by (unfold ratio_le; simpl; lia).
  exact (actual_length_grows
           (TestDataGenerator.init TestDataGenerator.ONE_THIRD TestDataGenerator.ONLY_N)
           (TestDataGenerator.init TestDataGenerator.HALF TestDataGenerator.ONLY_N)
           10 15 HL HL' Hr).
Defined.
